(** * PyNUT_Py3: the NUT client session layer

    A shallow embedding of [scripts/python/module/PyNUT_Py3.py], the
    [PyNUTClient] class that speaks the line-oriented protocol of a NUT
    [upsd] server through a [telnetlib.Telnet] handle, together with
    theorems about each of its operations.

    Layout: Python's [str] and [bytes] primitives used by the module, the
    exception type, the [telnetlib.Telnet] handle as an explicit state,
    a state-and-exception monad, the methods of [PyNUTClient] in source
    order, and finally the properties. *)

From Stdlib Require Import String Ascii List ZArith Lia Bool.
From stdpp Require Import gmap strings list fin_maps.

Open Scope string_scope.
Open Scope list_scope.

(** ** Characters and text

    A Python [str] and a Python [bytes] are both modelled as a [string],
    one [ascii] per code point or byte (code points stay below 256).  Where
    Python tells the two types apart (arguments of the transport, [==],
    [%] formatting), values are tagged with [pyval]. *)

Module Py.

Definition LF : ascii := "010"%char.
Definition TAB : ascii := "009"%char.
Definition CR : ascii := "013"%char.
Definition DQ : ascii := "034"%char.
Definition SQ : ascii := "039"%char.
Definition BSL : ascii := "092"%char.
Definition SP : ascii := " "%char.

(** The one-character texts: a newline and a double quote. *)
Definition nl : string := String LF EmptyString.
Definition dq : string := String DQ EmptyString.

Inductive pyval : Type :=
| PyBytes (b : string)
| PyStr (s : string).

(** [a == b]: a [bytes] never equals a [str]. *)
Definition py_eqb (a b : pyval) : bool :=
  match a, b with
  | PyBytes x, PyBytes y => String.eqb x y
  | PyStr x, PyStr y => String.eqb x y
  | _, _ => false
  end.

Definition len (s : string) : Z := Z.of_nat (String.length s).

Fixpoint take (n : nat) (s : string) : string :=
  match n, s with
  | S n', String c s' => String c (take n' s')
  | _, _ => EmptyString
  end.

Fixpoint drop (n : nat) (s : string) : string :=
  match n, s with
  | S n', String _ s' => drop n' s'
  | _, _ => s
  end.

(** Python's normalisation of one slice bound against a length: a negative
    bound counts from the end, and every bound is clamped to [0..n]. *)
Definition clamp (n : Z) (i : Z) : nat :=
  Z.to_nat (if (i <? 0)%Z then Z.max 0 (i + n) else Z.min i n).

(** [s[lo:hi]], an omitted bound being [None]. *)
Definition slice (lo hi : option Z) (s : string) : string :=
  let n := len s in
  let l := match lo with Some i => clamp n i | None => 0 end in
  let h := match hi with Some i => clamp n i | None => Z.to_nat n end in
  drop l (take h s).

(** [s.split(sep)] for a one-character separator, which is what every call
    in the module passes.  The result is never empty. *)
Fixpoint split (sep : ascii) (s : string) : list string :=
  match s with
  | EmptyString => [EmptyString]
  | String c s' =>
      if Ascii.eqb c sep then EmptyString :: split sep s'
      else match split sep s' with
           | h :: t => String c h :: t
           | [] => [String c EmptyString]
           end
  end.

(** [s.replace(old, new)] for a one-character [old]. *)
Fixpoint replace (old : ascii) (new : string) (s : string) : string :=
  match s with
  | EmptyString => EmptyString
  | String c s' =>
      if Ascii.eqb c old then new +:+ replace old new s'
      else String c (replace old new s')
  end.

(** [s.find(d)]: the index of the first occurrence, if any. *)
Fixpoint find (d s : string) : option nat :=
  if String.prefix d s then Some 0
  else match s with
       | EmptyString => None
       | String _ s' => S <$> find d s'
       end.

Definition is_ascii_char (c : ascii) : bool := (nat_of_ascii c <? 128)%nat.

Fixpoint is_ascii (s : string) : bool :=
  match s with
  | EmptyString => true
  | String c s' => is_ascii_char c && is_ascii s'
  end.

Fixpoint contains (c : ascii) (s : string) : bool :=
  match s with
  | EmptyString => false
  | String c' s' => Ascii.eqb c' c || contains c s'
  end.

Definition hex_digit (n : nat) : ascii :=
  ascii_of_nat (if (n <? 10)%nat then 48 + n else 87 + n).

(** One byte as [repr] of a [bytes] shows it inside the quote [q]. *)
Definition repr_byte (q : ascii) (c : ascii) : string :=
  let n := nat_of_ascii c in
  if Ascii.eqb c q || Ascii.eqb c BSL then String BSL (String c EmptyString)
  else if Ascii.eqb c TAB then String BSL "t"
  else if Ascii.eqb c LF then String BSL "n"
  else if Ascii.eqb c CR then String BSL "r"
  else if (n <? 32)%nat || (127 <=? n)%nat then
    String BSL (String "x" (String (hex_digit (n / 16))
                                   (String (hex_digit (n mod 16)) EmptyString)))
  else String c EmptyString.

Fixpoint repr_body (q : ascii) (b : string) : string :=
  match b with
  | EmptyString => EmptyString
  | String c b' => repr_byte q c +:+ repr_body q b'
  end.

(** [repr(b)] of a [bytes], which is what formatting a [bytes] with [%s]
    puts into a [str]: the letter b and the escaped bytes between single
    quotes, or between double quotes when the bytes hold a single quote
    and no double quote. *)
Definition bytes_repr (b : string) : string :=
  let q := if contains SQ b && negb (contains DQ b) then DQ else SQ in
  String "b" (String q (repr_body q b +:+ String q EmptyString)).

End Py.

(** ** Exceptions *)

(** The argument of a [PyNUTError]: none ([raise PyNUTError]), one text, or
    one pair of texts. *)
Inductive error_args : Type :=
| NoArgs
| ArgStr (s : string)
| ArgPair (a b : string).

Inductive exn : Type :=
| PyNUTError (args : error_args)
| TypeError
| IndexError
| ValueError
| AttributeError
| EOFError
| UnicodeEncodeError
| UnicodeDecodeError.

Inductive res (A : Type) : Type :=
| Ok (a : A)
| Raise (e : exn).

Arguments Ok {A} a.
Arguments Raise {A} e.

(** ** A monad of state and exceptions

    A statement runs in a state [S] and either yields a value or raises;
    the state reached is kept in both cases, as mutation before a [raise]
    is in Python. *)

Definition M (S A : Type) : Type := S -> res A * S.

Definition ret {S A} (a : A) : M S A := fun s => (Ok a, s).

Definition raise {S A} (e : exn) : M S A := fun s => (Raise e, s).

Definition bind {S A B} (m : M S A) (k : A -> M S B) : M S B :=
  fun s =>
    match m s with
    | (Ok a, s') => k a s'
    | (Raise e, s') => (Raise e, s')
    end.

(** [try: m  except: h] with a bare [except]. *)
Definition try_except {S A} (m : M S A) (h : M S A) : M S A :=
  fun s =>
    match m s with
    | (Ok a, s') => (Ok a, s')
    | (Raise _, s') => h s'
    end.

(** A pure computation that may raise, run inside a statement. *)
Definition lift {S A} (r : res A) : M S A := fun s => (r, s).

(** [for x in xs: body x]. *)
Fixpoint for_each {S A} (xs : list A) (body : A -> M S unit) : M S unit :=
  match xs with
  | [] => ret tt
  | x :: xs' => bind (body x) (fun _ => for_each xs' body)
  end.

Notation "'let!' x ':=' m 'in' k" := (bind m (fun x => k))
  (at level 10, x name, m at level 100, k at level 200).
Notation "'do!' m 'in' k" := (bind m (fun _ => k))
  (at level 10, m at level 100, k at level 200).

(** [s.encode('ascii')] and [b.decode('ascii')]. *)
Definition encode_ascii (s : string) : res string :=
  if Py.is_ascii s then Ok s else Raise UnicodeEncodeError.

Definition decode_ascii (b : string) : res string :=
  if Py.is_ascii b then Ok b else Raise UnicodeDecodeError.

(** [xs[i]] on a list. *)
Definition index {A} (xs : list A) (i : nat) : res A :=
  match xs !! i with
  | Some x => Ok x
  | None => Raise IndexError
  end.

(** [for x in xs: acc = body acc x], the loop variable [acc] being the
    object the loop builds. *)
Fixpoint foldM {S A B} (body : B -> A -> M S B) (xs : list A) (acc : B)
  : M S B :=
  match xs with
  | [] => ret acc
  | x :: xs' => let! acc' := body acc x in foldM body xs' acc'
  end.

(** ** The transport: [telnetlib.Telnet]

    The handle [self.__srv_handler].  [cookedq] holds the bytes the server
    sends, in order, after telnet processing; the peer closes the
    connection once they are consumed.  [sent] records the buffers given
    to [write], oldest first. *)

Record Telnet : Type := mkTelnet {
  cookedq : string;
  sent : list string
}.

(** [Telnet.write(buffer)].  Its first statement, [IAC in buffer] with [IAC]
    a [bytes], raises [TypeError] when [buffer] is a [str]. *)
Definition write (buffer : Py.pyval) : M Telnet unit :=
  fun t =>
    match buffer with
    | Py.PyStr _ => (Raise TypeError, t)
    | Py.PyBytes b => (Ok tt, mkTelnet (cookedq t) (sent t ++ [b]))
    end.

(** [Telnet.read_until(match)] without timeout.  [cookedq.find(match)]
    raises [TypeError] when [match] is a [str].  When the delimiter never
    comes the loop ends at end of file and [read_very_lazy] hands out what
    is left, raising [EOFError] when nothing is. *)
Definition read_until (match_ : Py.pyval) : M Telnet string :=
  fun t =>
    match match_ with
    | Py.PyStr _ => (Raise TypeError, t)
    | Py.PyBytes d =>
        match Py.find d (cookedq t) with
        | Some i =>
            let n := i + String.length d in
            (Ok (Py.take n (cookedq t)),
             mkTelnet (Py.drop n (cookedq t)) (sent t))
        | None =>
            match cookedq t with
            | EmptyString => (Raise EOFError, t)
            | buf => (Ok buf, mkTelnet EmptyString (sent t))
            end
        end
    end.

(** ** The class [PyNUTClient]

    Every method takes the handle as its state.  The debug flag only
    prints and is left out.  Line numbers refer to [PyNUT_Py3.py]. *)

Module PyNUTClient.

Import Py.

(** What [GetUPSVars] returns: the text it assigns at line 133, or the
    dictionary it builds. *)
Inductive ups_vars_t : Type :=
| VarsStr (s : string)
| VarsDict (d : gmap string string).

(** [b.split(sep)] on a [bytes] with a [str] separator (line 179). *)
Definition bytes_split_by_str (b sep : string) : res (list string) :=
  Raise TypeError.

(** Lines 70-75, the destructor: the argument of [write] is a [str], and
    the bare [except] swallows whatever is raised. *)
Definition __del__ : M Telnet unit :=
  try_except (write (PyStr ("LOGOUT" +:+ nl))) (ret tt).

(** Lines 77-97.  The state on entry is the handle line 85 has just
    opened.  The reads pass a timeout, which under the transport above (the
    peer sends what it has to say and closes) changes nothing. *)
Definition __connect (login password : option string) : M Telnet unit :=
  do! (match login with
       | Some login =>
           let! login_ascii := lift (encode_ascii login) in
           do! write (PyBytes ("USERNAME " +:+ login_ascii +:+ nl)) in
           let! raw := read_until (PyBytes nl) in
           let! result := lift (decode_ascii raw) in
           if negb (slice None (Some 2%Z) result =? "OK") then
             raise (PyNUTError (ArgStr (replace LF EmptyString result)))
           else ret tt
       | None => ret tt
       end) in
  match password with
  | Some password =>
      let! line := lift (encode_ascii ("PASSWORD " +:+ password +:+ nl)) in
      do! write (PyBytes line) in
      let! raw := read_until (PyBytes nl) in
      let! result := lift (decode_ascii raw) in
      if negb (slice None (Some 2%Z) result =? "OK") then
        raise (PyNUTError (ArgStr (replace LF EmptyString result)))
      else ret tt
  | None => ret tt
  end.

(** Lines 99-119. *)
Definition GetUPSList : M Telnet (gmap string string) :=
  do! write (PyBytes ("LIST UPS" +:+ nl)) in
  let! raw := read_until (PyBytes nl) in
  let! result := lift (decode_ascii raw) in
  if negb (result =? "BEGIN LIST UPS" +:+ nl) then
    raise (PyNUTError (ArgStr (replace LF EmptyString result)))
  else
    let! raw := read_until (PyBytes ("END LIST UPS" +:+ nl)) in
    let! result := lift (decode_ascii raw) in
    foldM (fun (ups_list : gmap string string) line =>
             if slice None (Some 3%Z) line =? "UPS" then
               match split DQ (slice (Some 4%Z) (Some (-1)%Z) line) with
               | [ups; desc] =>
                   ret (<[replace SP EmptyString ups := desc]> ups_list)
               | _ => raise ValueError
               end
             else ret ups_list)
          (split LF result) ∅.

(** Lines 121-147. *)
Definition GetUPSVars (ups : string) : M Telnet ups_vars_t :=
  let! ups_ascii := lift (encode_ascii ups) in
  do! write (PyBytes ("LIST VAR " +:+ ups_ascii +:+ nl)) in
  let! raw := read_until (PyBytes nl) in
  let! result := lift (decode_ascii raw) in
  if negb (result =? "BEGIN LIST VAR " +:+ ups +:+ nl) then
    ret (VarsStr "ERR")
  else
    let! raw := read_until (PyBytes ("END LIST VAR " +:+ ups_ascii +:+ nl)) in
    let! result := lift (decode_ascii raw) in
    let offset := len ("VAR " +:+ ups +:+ " ") in
    let end_offset := (0 - (len ("END LIST VAR " +:+ ups +:+ nl) + 1))%Z in
    let! ups_vars :=
      foldM (fun (ups_vars : gmap string string) current =>
               let! f0 := lift (index (split DQ (slice (Some offset) None current)) 0) in
               let var := replace SP EmptyString f0 in
               let! data := lift (index (split DQ (slice (Some offset) None current)) 1) in
               ret (<[var := data]> ups_vars))
            (split LF (slice None (Some end_offset) result)) ∅ in
    ret (VarsDict ups_vars).

(** Lines 172-181: the description lookup of one command, the body of the
    [try] and its bare [except]. *)
Definition cmd_desc (ups ups_ascii var : string) : M Telnet string :=
  try_except
    (let! var_ascii := lift (encode_ascii var) in
     do! write (PyBytes ("GET CMDDESC " +:+ ups_ascii +:+ var_ascii +:+ nl)) in
     let! temp := read_until (PyBytes nl) in
     if negb (py_eqb (PyBytes (slice None (Some 7%Z) temp)) (PyStr "CMDDESC")) then
       raise (PyNUTError NoArgs)
     else
       let off := len ("CMDDESC " +:+ ups +:+ " " +:+ var +:+ " ") in
       let! parts := lift (bytes_split_by_str (slice (Some off) (Some (-1)%Z) temp) dq) in
       lift (index parts 1))
    (ret var).

(** Lines 149-185. *)
Definition GetUPSCommands (ups : string) : M Telnet (gmap string string) :=
  let! ups_ascii := lift (encode_ascii ups) in
  do! write (PyBytes ("LIST CMD " +:+ ups_ascii +:+ nl)) in
  let! raw := read_until (PyBytes nl) in
  let! result := lift (decode_ascii raw) in
  if negb (result =? "BEGIN LIST CMD " +:+ ups +:+ nl) then
    raise (PyNUTError (ArgStr (replace LF EmptyString result)))
  else
    let! raw := read_until (PyBytes ("END LIST CMD " +:+ ups_ascii +:+ nl)) in
    let! result := lift (decode_ascii raw) in
    let offset := len ("CMD " +:+ ups +:+ " ") in
    let end_offset := (0 - (len ("END LIST CMD " +:+ ups +:+ nl) + 1))%Z in
    foldM (fun (ups_cmds : gmap string string) current =>
             let! f0 := lift (index (split DQ (slice (Some offset) None current)) 0) in
             let var := replace SP EmptyString f0 in
             let! desc := cmd_desc ups ups_ascii var in
             ret (<[var := desc]> ups_cmds))
          (split LF (slice None (Some end_offset) result)) ∅.

(** Lines 207-209: the body of the loop of [GetRWVars]; it updates the
    dictionary [rw_vars] in place. *)
Definition rw_body (offset : Z) (current : string)
  : M (gmap string string) unit :=
  let! f0 := lift (index (split DQ (slice (Some offset) None current)) 0) in
  let var := replace SP EmptyString f0 in
  let! data := lift (index (split DQ (slice (Some offset) None current)) 1) in
  fun rw_vars => (Ok tt, <[var := data]> rw_vars).

(** Lines 187-214.  The [try] at line 205 encloses the whole loop, and the
    handler at line 211 finds [rw_vars] as the loop left it. *)
Definition GetRWVars (ups : string) : M Telnet (gmap string string) :=
  let! ups_ascii := lift (encode_ascii ups) in
  do! write (PyBytes ("LIST RW " +:+ ups_ascii +:+ nl)) in
  let! raw := read_until (PyBytes nl) in
  let! result := lift (decode_ascii raw) in
  if negb (result =? "BEGIN LIST RW " +:+ ups +:+ nl) then
    raise (PyNUTError (ArgStr (replace LF EmptyString result)))
  else
    let! raw := read_until (PyBytes ("END LIST RW " +:+ ups_ascii +:+ nl)) in
    let! result := lift (decode_ascii raw) in
    let offset := len ("VAR " +:+ ups) in
    let end_offset := (0 - (len ("END LIST RW " +:+ ups +:+ nl) + 1))%Z in
    let rw_vars : gmap string string := ∅ in
    let '(_, rw_vars) :=
      try_except
        (for_each (split LF (slice None (Some end_offset) result))
                  (rw_body offset))
        (ret tt) rw_vars in
    ret rw_vars.

(** Lines 216-229. *)
Definition SetRWVar (ups var value : string) : M Telnet string :=
  let! ups := lift (encode_ascii ups) in
  let! var := lift (encode_ascii var) in
  let! value := lift (encode_ascii value) in
  do! write (PyBytes ("SET VAR " +:+ ups +:+ " " +:+ var +:+ " " +:+ value +:+ nl)) in
  let! raw := read_until (PyBytes nl) in
  let! result := lift (decode_ascii raw) in
  if result =? "OK" +:+ nl then ret "OK"
  else raise (PyNUTError (ArgStr result)).

(** Lines 231-246. *)
Definition RunUPSCommand (ups command : string) : M Telnet string :=
  let! ups := lift (encode_ascii ups) in
  let! command := lift (encode_ascii command) in
  do! write (PyBytes ("INSTCMD " +:+ ups +:+ " " +:+ command +:+ nl)) in
  let! raw := read_until (PyBytes nl) in
  let! result := lift (decode_ascii raw) in
  if result =? "OK" +:+ nl then ret "OK"
  else raise (PyNUTError (ArgStr (replace LF EmptyString result))).

(** Line 263: the argument of the second [write] of [FSD], a [str] built
    by formatting the [bytes] [ups_ascii] into a [str] pattern. *)
Definition FSD_line (ups_ascii : string) : pyval :=
  PyStr ("FSD " +:+ bytes_repr ups_ascii +:+ nl).

(** Lines 248-268. *)
Definition FSD (ups : string) : M Telnet string :=
  let! ups_ascii := lift (encode_ascii ups) in
  do! write (PyBytes ("MASTER " +:+ ups_ascii +:+ nl)) in
  let! raw := read_until (PyBytes nl) in
  let! result := lift (decode_ascii raw) in
  if negb (result =? "OK MASTER-GRANTED" +:+ nl) then
    raise (PyNUTError
             (ArgPair "Master level function are not available" EmptyString))
  else
    do! write (FSD_line ups_ascii) in
    let! raw := read_until (PyBytes nl) in
    let! result := lift (decode_ascii raw) in
    if result =? "OK FSD-SET" +:+ nl then ret "OK"
    else raise (PyNUTError (ArgStr (replace LF EmptyString result))).

(** Lines 270-278. *)
Definition help : M Telnet string :=
  do! write (PyBytes ("HELP" +:+ nl)) in
  let! raw := read_until (PyBytes nl) in
  lift (decode_ascii raw).

(** Lines 280-288.  The delimiter at line 288 is a [str]. *)
Definition ver : M Telnet string :=
  do! write (PyBytes ("VER" +:+ nl)) in
  let! raw := read_until (PyStr nl) in
  lift (decode_ascii raw).

(** Truth value of the argument [ups] of [ListClients]: [None] and the
    empty text are false. *)
Definition truthy (ups : option string) : bool :=
  match ups with
  | None => false
  | Some u => negb (u =? EmptyString)
  end.

(** Lines 290-320.  [ups] defaults to [None]; line 294 calls [encode] on it
    before anything else.  The [return] at line 320 is read as the last
    statement of the method. *)
Definition ListClients (ups : option string)
  : M Telnet (gmap string (list string)) :=
  let! ups_ascii :=
    match ups with
    | None => raise AttributeError
    | Some u => lift (encode_ascii u)
    end in
  do! (if truthy ups then
         let! known := GetUPSList in
         if bool_decide (default EmptyString ups ∈ dom known) then ret tt
         else raise (PyNUTError
                       (ArgStr (default EmptyString ups +:+ " is not a valid UPS")))
       else ret tt) in
  do! (if truthy ups then write (PyBytes ("LIST CLIENTS " +:+ ups_ascii +:+ nl))
       else write (PyBytes ("LIST CLIENTS" +:+ nl))) in
  let! raw := read_until (PyBytes nl) in
  let! result := lift (decode_ascii raw) in
  if negb (result =? "BEGIN LIST CLIENTS" +:+ nl) then
    raise (PyNUTError (ArgStr (replace LF EmptyString result)))
  else
    let! raw := read_until (PyBytes ("END LIST CLIENTS" +:+ nl)) in
    let! result := lift (decode_ascii raw) in
    foldM (fun (ups_list : gmap string (list string)) line =>
             if slice None (Some 6%Z) line =? "CLIENT" then
               match split SP (slice (Some 7%Z) None line) with
               | [host; ups] =>
                   let ups_list :=
                     if bool_decide (ups ∈ dom ups_list) then ups_list
                     else <[ups := []]> ups_list in
                   ret (alter (fun clients => clients ++ [host]) ups ups_list)
               | _ => raise ValueError
               end
             else ret ups_list)
          (split LF result) ∅.

End PyNUTClient.

Import Py PyNUTClient.

(** ** Server scripts used in the examples *)

(** The answer to a device enumeration with two devices. *)
Definition scenarioA : string :=
  "BEGIN LIST UPS" +:+ nl +:+
  "UPS ups1 " +:+ dq +:+ "Desc one" +:+ dq +:+ nl +:+
  "UPS ups2 " +:+ dq +:+ "Desc two" +:+ dq +:+ nl +:+
  "END LIST UPS" +:+ nl.

(** The answer to a client enumeration with two clients of one device. *)
Definition scenarioD : string :=
  "BEGIN LIST CLIENTS" +:+ nl +:+
  "CLIENT 10.0.0.1 dev1" +:+ nl +:+
  "CLIENT 10.0.0.2 dev1" +:+ nl +:+
  "END LIST CLIENTS" +:+ nl.

(** A server that grants master level and then acknowledges the forced
    shutdown. *)
Definition fsd_granted : string :=
  "OK MASTER-GRANTED" +:+ nl +:+ "OK FSD-SET" +:+ nl.

(** A writable-variable list whose first body line has no quoted value and
    whose second body line is well formed. *)
Definition rw_bad_then_good : string :=
  "BEGIN LIST RW u" +:+ nl +:+
  "VAR u bad" +:+ nl +:+
  "VAR u c " +:+ dq +:+ "3" +:+ dq +:+ nl +:+
  "END LIST RW u" +:+ nl.

(** A writable-variable list with a well-formed line, then a line without
    quoted value, then a well-formed line again. *)
Definition rw_good_bad_good : string :=
  "BEGIN LIST RW u" +:+ nl +:+
  "VAR u a.b " +:+ dq +:+ "1 2" +:+ dq +:+ nl +:+
  "VAR u bad" +:+ nl +:+
  "VAR u c " +:+ dq +:+ "3" +:+ dq +:+ nl +:+
  "END LIST RW u" +:+ nl.

(** A writable-variable list whose second body line holds the byte 233,
    which is not ASCII. *)
Definition rw_good_then_non_ascii : string :=
  "BEGIN LIST RW u" +:+ nl +:+
  "VAR u a.b " +:+ dq +:+ "1 2" +:+ dq +:+ nl +:+
  "VAR u name " +:+ dq +:+ String (ascii_of_nat 233) "t" +:+ dq +:+ nl +:+
  "END LIST RW u" +:+ nl.

(** ** Readings of the list loops *)

(** The body lines the loops of [GetUPSCommands] and [GetRWVars] iterate
    over: [result[:end_offset].split] on newlines, for the list kind
    [kind] (CMD or RW). *)
Definition body_lines (kind ups result : string) : list string :=
  split LF
    (slice None
       (Some (0 - (len ("END LIST " +:+ kind +:+ " " +:+ ups +:+ nl) + 1))%Z)
       result).

(** The command name line 169 takes from a body line. *)
Definition cmd_name (ups current : string) : string :=
  replace SP EmptyString
    (hd EmptyString
        (split DQ (slice (Some (len ("CMD " +:+ ups +:+ " "))) None current))).

(** The pair lines 207-208 take from a body line of a writable-variable
    list, when the line has a quote after its prefix. *)
Definition rw_parse (ups current : string) : option (string * string) :=
  match split DQ (slice (Some (len ("VAR " +:+ ups))) None current) with
  | f0 :: data :: _ => Some (replace SP EmptyString f0, data)
  | _ => None
  end.

(** The pairs of the body lines that come before the first line without
    such a pair. *)
Fixpoint well_formed_prefix (ups : string) (lines : list string)
  : list (string * string) :=
  match lines with
  | [] => []
  | current :: lines' =>
      match rw_parse ups current with
      | Some p => p :: well_formed_prefix ups lines'
      | None => []
      end
  end.

(** [d[k] = v] for each pair in turn. *)
Definition assign_all (pairs : list (string * string))
  (d : gmap string string) : gmap string string :=
  foldl (fun d p => <[p.1 := p.2]> d) d pairs.

(** A command list with two commands, followed by the answers the server
    gives to the two description requests. *)
Definition cmd_two_commands : string :=
  "BEGIN LIST CMD u" +:+ nl +:+
  "CMD u beeper.on" +:+ nl +:+
  "CMD u load.off" +:+ nl +:+
  "END LIST CMD u" +:+ nl +:+
  "CMDDESC u beeper.on " +:+ dq +:+ "Enable the beeper" +:+ dq +:+ nl +:+
  "CMDDESC u load.off " +:+ dq +:+ "Turn off the load" +:+ dq +:+ nl.

(** ** The server's side of the wire format *)

(** Lines, each one ended by a newline. *)
Fixpoint unlines (lines : list string) : string :=
  match lines with
  | [] => EmptyString
  | l :: lines' => l +:+ nl +:+ unlines lines'
  end.

(** A text that can stand between quotes on one line: ASCII, with no quote
    and no newline in it. *)
Definition plain (s : string) : bool :=
  is_ascii s && negb (contains DQ s) && negb (contains LF s).

(** A text that can stand as a name: plain and without space. *)
Definition token (s : string) : bool :=
  plain s && negb (contains SP s).

(** The body line of a device list for the device [e.1] described by
    [e.2]: UPS, the name, the description between quotes. *)
Definition ups_line (e : string * string) : string :=
  "UPS " +:+ e.1 +:+ " " +:+ dq +:+ e.2 +:+ dq.

(** The body line of a variable list of [ups] for the variable [e.1] of
    value [e.2]: VAR, the device, the name, the value between quotes. *)
Definition var_line (ups : string) (e : string * string) : string :=
  "VAR " +:+ ups +:+ " " +:+ e.1 +:+ " " +:+ dq +:+ e.2 +:+ dq.

(** The body line of a command list of [ups] for the command [name]. *)
Definition cmd_line (ups name : string) : string :=
  "CMD " +:+ ups +:+ " " +:+ name.

(** The body line of a client list for the host [e.1] connected to the
    device [e.2]. *)
Definition client_line (e : string * string) : string :=
  "CLIENT " +:+ e.1 +:+ " " +:+ e.2.

(** The hosts a client list reports for the device [dev], in the order of
    the list. *)
Definition clients_of (dev : string) (entries : list (string * string))
  : list string :=
  map fst (filter (fun e => e.2 = dev) entries).

(** Lines 316-318 on a dictionary: the host [e.1] is appended to the hosts
    of the device [e.2], which start empty. *)
Definition add_client (d : gmap string (list string)) (e : string * string)
  : gmap string (list string) :=
  <[e.2 := default [] (d !! e.2) ++ [e.1]]> d.

(** The handle after [write(b)]. *)
Definition wrote (b : string) (t : Telnet) : Telnet :=
  mkTelnet (cookedq t) (sent t ++ [b]).

(** * Properties *)

(** ** Running statements *)

Lemma bind_Ok {S A B} (m : M S A) (k : A -> M S B) s a s' :
  m s = (Ok a, s') -> bind m k s = k a s'.
Proof. intros H. unfold bind. now rewrite H. Qed.

Lemma bind_Raise {S A B} (m : M S A) (k : A -> M S B) s e s' :
  m s = (Raise e, s') -> bind m k s = (Raise e, s').
Proof. intros H. unfold bind. now rewrite H. Qed.

Lemma bind_lift_Ok {S A B} (a : A) (k : A -> M S B) s :
  bind (lift (Ok a)) k s = k a s.
Proof. reflexivity. Qed.

Lemma write_bytes b t : write (PyBytes b) t = (Ok tt, wrote b t).
Proof. reflexivity. Qed.

Lemma encode_ascii_Ok s : is_ascii s = true -> encode_ascii s = Ok s.
Proof. intros H. unfold encode_ascii. now rewrite H. Qed.

Lemma decode_ascii_Ok s : is_ascii s = true -> decode_ascii s = Ok s.
Proof. intros H. unfold decode_ascii. now rewrite H. Qed.

(** Reading never touches the record of what was written. *)
Lemma read_until_sent d t r t' :
  read_until d t = (r, t') -> sent t' = sent t.
Proof.
  unfold read_until. destruct d as [d|d].
  - destruct (find d (cookedq t)).
    + intros [= _ <-]. reflexivity.
    + destruct (cookedq t); intros [= _ <-]; reflexivity.
  - intros [= _ <-]. reflexivity.
Qed.

Lemma foldM_keeps_state {S A B} (body : B -> A -> M S B) :
  (forall acc x s, (body acc x s).2 = s) ->
  forall xs acc s, (foldM body xs acc s).2 = s.
Proof.
  intros Hbody xs. induction xs as [|x xs IH]; intros acc s; simpl.
  - reflexivity.
  - unfold bind. specialize (Hbody acc x s).
    destruct (body acc x s) as [[acc'|e] s1]; simpl in Hbody; subst s1.
    + apply IH.
    + reflexivity.
Qed.

Lemma try_pass_state {S} (m : M S unit) s :
  try_except m (ret tt) s = (Ok tt, (m s).2).
Proof.
  unfold try_except, ret. destruct (m s) as [[[]|e] s']; reflexivity.
Qed.

(** ** Text and reading from the queue *)

Lemma append_cons c s r : String c s +:+ r = String c (s +:+ r).
Proof. reflexivity. Qed.

Lemma append_assoc a b c : (a +:+ b) +:+ c = a +:+ (b +:+ c).
Proof.
  induction a as [|x a IH]; [reflexivity|].
  rewrite !append_cons. now rewrite IH.
Qed.

Lemma append_empty_r s : s +:+ EmptyString = s.
Proof.
  induction s as [|x s IH]; [reflexivity|].
  rewrite append_cons. now rewrite IH.
Qed.

Lemma is_ascii_app a b : is_ascii (a +:+ b) = is_ascii a && is_ascii b.
Proof.
  induction a as [|x a IH]; [reflexivity|].
  rewrite append_cons. simpl. rewrite IH. now rewrite andb_assoc.
Qed.

Lemma contains_app c a b : contains c (a +:+ b) = contains c a || contains c b.
Proof.
  induction a as [|x a IH]; [reflexivity|].
  rewrite append_cons. simpl. rewrite IH. now rewrite orb_assoc.
Qed.

Lemma take_app_length s r n :
  take (String.length s + n) (s +:+ r) = s +:+ take n r.
Proof.
  induction s as [|x s IH]; [reflexivity|].
  rewrite append_cons. simpl. now rewrite IH.
Qed.

Lemma drop_app_length s r n :
  drop (String.length s + n) (s +:+ r) = drop n r.
Proof.
  induction s as [|x s IH]; [reflexivity|].
  rewrite append_cons. simpl. exact IH.
Qed.

Lemma take_0 s : take 0 s = EmptyString.
Proof. now destruct s. Qed.

Lemma drop_0 s : drop 0 s = s.
Proof. now destruct s. Qed.

Lemma take_empty n : take n EmptyString = EmptyString.
Proof. now destruct n. Qed.

Lemma drop_empty n : drop n EmptyString = EmptyString.
Proof. now destruct n. Qed.

Lemma slice_empty lo hi : slice lo hi EmptyString = EmptyString.
Proof. unfold slice. now rewrite take_empty, drop_empty. Qed.

(** Cutting one character more than a text holds leaves nothing: this is
    what [result[:end_offset]] gives on a block without body lines. *)
Lemma slice_past_start e :
  slice None (Some (0 - (len e + 1))%Z) e = EmptyString.
Proof.
  unfold slice, clamp, len.
  destruct (Z.ltb_spec (0 - (Z.of_nat (String.length e) + 1)) 0); [|lia].
  replace (Z.to_nat _) with 0 by lia.
  now rewrite take_0.
Qed.

Lemma split_cons sep s : exists h t, split sep s = h :: t.
Proof.
  induction s as [|c s [h [t IH]]]; simpl.
  - eauto.
  - destruct (Ascii.eqb c sep); [eauto|]. rewrite IH. eauto.
Qed.

Lemma index_0_split sep s :
  index (split sep s) 0 = Ok (hd EmptyString (split sep s)).
Proof. destruct (split_cons sep s) as [h [t ->]]. reflexivity. Qed.

Lemma prefix_app d r : String.prefix d (d +:+ r) = true.
Proof.
  induction d as [|x d IH]; [now destruct r|].
  rewrite append_cons. simpl. destruct (ascii_dec x x); [exact IH|contradiction].
Qed.

Lemma find_unfold d s :
  find d s = if String.prefix d s then Some 0
             else match s with
                  | EmptyString => None
                  | String _ s' => S <$> find d s'
                  end.
Proof. now destruct s. Qed.

(** The delimiter at the head of the queue is found at index 0. *)
Lemma find_here d r : find d (d +:+ r) = Some 0.
Proof. rewrite find_unfold. now rewrite prefix_app. Qed.

(** A newline that follows a text without newline is the first one. *)
Lemma find_nl s r :
  contains LF s = false -> find nl (s +:+ nl +:+ r) = Some (String.length s).
Proof.
  induction s as [|x s IH]; intros Hs.
  - apply (find_here nl r).
  - simpl in Hs. apply orb_false_elim in Hs as [Hx Hs].
    rewrite append_cons, find_unfold.
    change (String.prefix nl (String x (s +:+ nl +:+ r)))
      with (if ascii_dec LF x
            then String.prefix EmptyString (s +:+ nl +:+ r) else false).
    destruct (ascii_dec LF x) as [<-|_].
    + rewrite Ascii.eqb_refl in Hx. discriminate.
    + rewrite (IH Hs). reflexivity.
Qed.

(** Reading a line: the text up to the first newline, the rest stays. *)
Lemma read_until_line s r history :
  contains LF s = false ->
  read_until (PyBytes nl) (mkTelnet (s +:+ nl +:+ r) history)
  = (Ok (s +:+ nl), mkTelnet r history).
Proof.
  intros Hs. unfold read_until. cbn [cookedq sent].
  rewrite (find_nl s r Hs).
  change (String.length nl) with 1.
  rewrite take_app_length, drop_app_length.
  reflexivity.
Qed.

(** Reading up to a marker that comes next. *)
Lemma read_until_here d r history :
  read_until (PyBytes d) (mkTelnet (d +:+ r) history)
  = (Ok d, mkTelnet r history).
Proof.
  unfold read_until. cbn [cookedq sent].
  rewrite find_here.
  replace (0 + String.length d) with (String.length d + 0) by lia.
  rewrite take_app_length, drop_app_length, take_0, drop_0, append_empty_r.
  reflexivity.
Qed.

(** ** Device enumeration: GetUPSList *)

(** C3: when the server answers the device enumeration with the two-device
    list block of scenario A, [GetUPSList] returns the mapping of ups1 to
    Desc one and of ups2 to Desc two (and has written the one request
    LIST UPS). *)
Theorem GetUPSList_scenario_A (history : list string) :
  GetUPSList (mkTelnet scenarioA history)
  = (Ok {[ "ups1" := "Desc one"; "ups2" := "Desc two" ]},
     mkTelnet EmptyString (history ++ ["LIST UPS" +:+ nl])).
Proof. vm_compute. reflexivity. Qed.

(** [GetUPSList] writes its one request and nothing else, whether it
    returns or raises. *)
Lemma GetUPSList_sent t :
  sent (GetUPSList t).2 = sent t ++ ["LIST UPS" +:+ nl].
Proof.
  unfold GetUPSList.
  rewrite (bind_Ok _ _ _ _ _ (write_bytes _ t)).
  unfold bind at 1.
  destruct (read_until (PyBytes nl) (wrote ("LIST UPS" +:+ nl) t))
    as [[raw|e] t1] eqn:Hread;
    apply read_until_sent in Hread; simpl in Hread; [|exact Hread].
  unfold bind at 1, lift, decode_ascii.
  destruct (is_ascii raw); [|exact Hread].
  destruct (negb (raw =? "BEGIN LIST UPS" +:+ nl)); [exact Hread|].
  unfold bind at 1.
  destruct (read_until (PyBytes ("END LIST UPS" +:+ nl)) t1)
    as [[raw2|e] t2] eqn:Hread2;
    apply read_until_sent in Hread2; [|simpl; congruence].
  unfold bind at 1.
  destruct (is_ascii raw2); [|simpl; congruence].
  rewrite foldM_keeps_state; [congruence|].
  intros acc x s.
  destruct (slice None (Some 3%Z) x =? "UPS"); [|reflexivity].
  destruct (split DQ (slice (Some 4%Z) (Some (-1)%Z) x)) as [|? [|? [|? ?]]];
    reflexivity.
Qed.

(** ** Variable enumeration: GetUPSVars *)

(** C4: for an ASCII device identifier, when the first line read by
    [GetUPSVars] is an ASCII line other than BEGIN LIST VAR followed by the
    identifier and a newline, the operation raises nothing and returns the
    text ERR in place of a dictionary. *)
Theorem GetUPSVars_begin_mismatch_returns_ERR ups t line t' :
  is_ascii ups = true ->
  read_until (PyBytes nl) (wrote ("LIST VAR " +:+ ups +:+ nl) t) = (Ok line, t') ->
  is_ascii line = true ->
  line <> "BEGIN LIST VAR " +:+ ups +:+ nl ->
  GetUPSVars ups t = (Ok (VarsStr "ERR"), t').
Proof.
  intros Hups Hread Hline Hne. unfold GetUPSVars.
  rewrite (encode_ascii_Ok _ Hups), bind_lift_Ok.
  rewrite (bind_Ok _ _ _ _ _ (write_bytes _ t)).
  rewrite (bind_Ok _ _ _ _ _ Hread).
  rewrite (decode_ascii_Ok _ Hline), bind_lift_Ok.
  destruct (String.eqb_spec line ("BEGIN LIST VAR " +:+ ups +:+ nl)) as [->|_];
    [contradiction | reflexivity].
Qed.

Lemma GetUPSVars_begin_mismatch_witness :
  GetUPSVars "ups1" (mkTelnet ("ERR UNKNOWN-UPS" +:+ nl) [])
  = (Ok (VarsStr "ERR"), mkTelnet EmptyString ["LIST VAR ups1" +:+ nl]).
Proof.
  apply (GetUPSVars_begin_mismatch_returns_ERR
           "ups1" (mkTelnet ("ERR UNKNOWN-UPS" +:+ nl) [])
           ("ERR UNKNOWN-UPS" +:+ nl)).
  - reflexivity.
  - reflexivity.
  - reflexivity.
  - vm_compute. discriminate.
Defined.

(** C10: for an ASCII device identifier without newline, when the server
    answers LIST VAR with the BEGIN line immediately followed by the END
    line (a list block with zero body lines), [GetUPSVars] does not return
    an empty dictionary: it raises [IndexError], from the unguarded index 1
    at line 144. *)
Theorem GetUPSVars_no_variables_raises_IndexError ups rest history :
  is_ascii ups = true ->
  contains LF ups = false ->
  GetUPSVars ups
    (mkTelnet (("BEGIN LIST VAR " +:+ ups +:+ nl)
               +:+ ("END LIST VAR " +:+ ups +:+ nl) +:+ rest) history)
  = (Raise IndexError,
     mkTelnet rest (history ++ ["LIST VAR " +:+ ups +:+ nl])).
Proof.
  intros Hups Hnl. unfold GetUPSVars.
  rewrite (encode_ascii_Ok _ Hups), bind_lift_Ok.
  rewrite (bind_Ok _ _ _ _ _ (write_bytes _ _)). unfold wrote. cbn [cookedq sent].
  rewrite <- (append_assoc "BEGIN LIST VAR " ups nl).
  rewrite (append_assoc ("BEGIN LIST VAR " +:+ ups) nl).
  assert (Hline : contains LF ("BEGIN LIST VAR " +:+ ups) = false).
  { rewrite contains_app, Hnl. reflexivity. }
  rewrite (bind_Ok _ _ _ _ _ (read_until_line _ _ _ Hline)).
  rewrite decode_ascii_Ok.
  2:{ rewrite !is_ascii_app, Hups. reflexivity. }
  rewrite bind_lift_Ok, append_assoc, String.eqb_refl. cbn [negb].
  rewrite (bind_Ok _ _ _ _ _ (read_until_here _ _ _)).
  rewrite decode_ascii_Ok.
  2:{ rewrite !is_ascii_app, Hups. reflexivity. }
  rewrite bind_lift_Ok, slice_past_start.
  cbn [split foldM]. rewrite slice_empty. reflexivity.
Qed.

Lemma GetUPSVars_no_variables_witness :
  GetUPSVars "ups1"
    (mkTelnet (("BEGIN LIST VAR " +:+ "ups1" +:+ nl)
               +:+ ("END LIST VAR " +:+ "ups1" +:+ nl) +:+ EmptyString) [])
  = (Raise IndexError, mkTelnet EmptyString ([] ++ ["LIST VAR " +:+ "ups1" +:+ nl])).
Proof.
  apply (GetUPSVars_no_variables_raises_IndexError "ups1" EmptyString []);
    reflexivity.
Defined.

(** ** Command enumeration: GetUPSCommands *)

(** The description lookup always ends in its handler: the comparison at
    line 175 is between a [bytes] and a [str], so the [try] body raises
    whenever it gets that far, and the description is the command name. *)
Lemma cmd_desc_falls_back ups ups_ascii var t :
  (cmd_desc ups ups_ascii var t).1 = Ok var.
Proof.
  unfold cmd_desc, try_except, bind, lift.
  destruct (encode_ascii var) as [var_ascii|e]; [|reflexivity].
  rewrite write_bytes.
  destruct (read_until (PyBytes nl) _) as [[temp|e] t1]; reflexivity.
Qed.

Lemma GetUPSCommands_loop ups ups_ascii (lines : list string) :
  forall (acc : gmap string string) t,
    (foldM (fun (ups_cmds : gmap string string) current =>
              let! f0 := lift (index (split DQ (slice (Some (len ("CMD " +:+ ups +:+ " "))) None current)) 0) in
              let var := replace SP EmptyString f0 in
              let! desc := cmd_desc ups ups_ascii var in
              ret (<[var := desc]> ups_cmds))
           lines acc t).1
    = Ok (assign_all (map (fun c => (cmd_name ups c, cmd_name ups c)) lines) acc).
Proof.
  induction lines as [|current lines IH]; intros acc t.
  - reflexivity.
  - cbn [foldM map assign_all foldl]. unfold bind at 1. unfold bind at 1.
    rewrite index_0_split. unfold lift at 1. cbv zeta.
    unfold bind at 1.
    pose proof (cmd_desc_falls_back ups ups_ascii (cmd_name ups current) t) as Hd.
    unfold cmd_name in Hd at 1.
    destruct (cmd_desc _ _ _ t) as [r t1]. simpl in Hd. subst r.
    unfold ret at 1. apply IH.
Qed.

Lemma assign_all_cons p ps (d : gmap string string) :
  assign_all (p :: ps) d = assign_all ps (<[p.1 := p.2]> d).
Proof. reflexivity. Qed.

Lemma assign_all_names_lookup (names : list string) :
  forall (acc : gmap string string),
    (forall k v, acc !! k = Some v -> v = k) ->
    forall k v, assign_all (map (fun n => (n, n)) names) acc !! k = Some v -> v = k.
Proof.
  induction names as [|n names IH]; intros acc Hacc k v; cbn.
  - apply Hacc.
  - apply IH. intros k' v'. rewrite lookup_insert.
    destruct (decide (n = k')); [congruence | apply Hacc].
Qed.

Lemma assign_all_names_dom (names : list string) :
  forall (acc : gmap string string) k,
    is_Some (assign_all (map (fun n => (n, n)) names) acc !! k)
    <-> k ∈ names \/ is_Some (acc !! k).
Proof.
  induction names as [|n names IH]; intros acc k; cbn [map].
  - rewrite elem_of_nil. cbn. tauto.
  - rewrite assign_all_cons, IH, elem_of_cons, lookup_insert. cbn [fst snd].
    destruct (decide (n = k)) as [->|Hne].
    + split; [tauto | intros _; right; eauto].
    + split; [tauto | intros [[Heq|H]|H]; [congruence | tauto | tauto]].
Qed.

(** C9: for an ASCII device identifier and a well-framed answer to LIST CMD
    (the BEGIN line matches and the block up to the END marker is read as
    ASCII text), [GetUPSCommands] returns a dictionary in which every
    description is the command name itself, whatever the server answers to
    the GET CMDDESC requests; its keys are exactly the command names of
    the body lines. *)
Theorem GetUPSCommands_descriptions_are_names ups t t1 raw t2 :
  is_ascii ups = true ->
  read_until (PyBytes nl) (wrote ("LIST CMD " +:+ ups +:+ nl) t)
  = (Ok ("BEGIN LIST CMD " +:+ ups +:+ nl), t1) ->
  read_until (PyBytes ("END LIST CMD " +:+ ups +:+ nl)) t1 = (Ok raw, t2) ->
  is_ascii raw = true ->
  exists ups_cmds,
    (GetUPSCommands ups t).1 = Ok ups_cmds
    /\ (forall var desc, ups_cmds !! var = Some desc -> desc = var)
    /\ (forall var, is_Some (ups_cmds !! var)
                    <-> var ∈ map (cmd_name ups) (body_lines "CMD" ups raw)).
Proof.
  intros Hups Hbegin Hend Hraw.
  exists (assign_all (map (fun n => (n, n))
                          (map (cmd_name ups) (body_lines "CMD" ups raw))) ∅).
  split; [|split].
  - unfold GetUPSCommands.
    rewrite (encode_ascii_Ok _ Hups), bind_lift_Ok.
    rewrite (bind_Ok _ _ _ _ _ (write_bytes _ t)).
    rewrite (bind_Ok _ _ _ _ _ Hbegin).
    rewrite decode_ascii_Ok.
    2:{ rewrite !is_ascii_app, Hups. reflexivity. }
    rewrite bind_lift_Ok, String.eqb_refl. cbn [negb].
    rewrite (bind_Ok _ _ _ _ _ Hend).
    rewrite (decode_ascii_Ok _ Hraw), bind_lift_Ok. cbv zeta.
    rewrite map_map.
    apply (GetUPSCommands_loop ups ups (body_lines "CMD" ups raw) ∅ t2).
  - apply assign_all_names_lookup. intros k v. rewrite lookup_empty. discriminate.
  - intros var. rewrite assign_all_names_dom, lookup_empty.
    split; [intros [H|[? [=]]]; exact H | tauto].
Qed.

Lemma GetUPSCommands_descriptions_witness :
  exists ups_cmds,
    (GetUPSCommands "u" (mkTelnet cmd_two_commands [])).1 = Ok ups_cmds
    /\ (forall var desc, ups_cmds !! var = Some desc -> desc = var)
    /\ (forall var, is_Some (ups_cmds !! var)
                    <-> var ∈ map (cmd_name "u")
                                  (body_lines "CMD" "u"
                                     ("CMD u beeper.on" +:+ nl +:+
                                      "CMD u load.off" +:+ nl +:+
                                      "END LIST CMD u" +:+ nl))).
Proof.
  eapply (GetUPSCommands_descriptions_are_names "u"
            (mkTelnet cmd_two_commands [])).
  - reflexivity.
  - vm_compute. reflexivity.
  - vm_compute. reflexivity.
  - reflexivity.
Defined.

(** On that script the two entries are beeper.on and load.off, each
    described by its own name, although the server sent descriptions. *)
Example GetUPSCommands_two_commands :
  (GetUPSCommands "u" (mkTelnet cmd_two_commands [])).1
  = Ok {[ "beeper.on" := "beeper.on"; "load.off" := "load.off" ]}.
Proof. vm_compute. reflexivity. Qed.

(** ** Writable-variable enumeration: GetRWVars *)

Section RwLoop.

Variable ups : string.

Lemma rw_body_parsed current k v (rw_vars : gmap string string) :
  rw_parse ups current = Some (k, v) ->
  rw_body (len ("VAR " +:+ ups)) current rw_vars = (Ok tt, <[k := v]> rw_vars).
Proof.
  unfold rw_parse, rw_body, bind, lift, index.
  destruct (split DQ _) as [|f0 [|data rest]]; intros [= <- <-]; reflexivity.
Qed.

Lemma rw_body_unparsed current (rw_vars : gmap string string) :
  rw_parse ups current = None ->
  rw_body (len ("VAR " +:+ ups)) current rw_vars = (Raise IndexError, rw_vars).
Proof.
  unfold rw_parse, rw_body, bind, lift, index.
  destruct (split DQ _) as [|f0 [|data rest]]; intros [=]; reflexivity.
Qed.

(** The loop leaves in [rw_vars] the pairs of the lines before the first
    malformed one, whether it ends normally or by the exception. *)
Lemma rw_loop_state (lines : list string) :
  forall rw_vars : gmap string string,
    (for_each lines (rw_body (len ("VAR " +:+ ups))) rw_vars).2
    = assign_all (well_formed_prefix ups lines) rw_vars.
Proof.
  induction lines as [|current lines IH]; intros rw_vars.
  - reflexivity.
  - cbn [for_each well_formed_prefix]. unfold bind.
    destruct (rw_parse ups current) as [[k v]|] eqn:Hp.
    + rewrite (rw_body_parsed _ _ _ _ Hp). rewrite IH. reflexivity.
    + rewrite (rw_body_unparsed _ _ Hp). reflexivity.
Qed.

End RwLoop.

(** C6, as amended: for an ASCII device identifier and a well-framed
    answer to LIST RW whose block, as read up to the END marker, is ASCII
    text, [GetRWVars] never fails because of a malformed body line (a line
    without a quote after its prefix): the parse exception is suppressed
    and the dictionary returned holds the pairs of the well-formed body
    lines that come before the first malformed line, assigned in order.
    Lines after it contribute nothing. *)
Theorem GetRWVars_returns_well_formed_prefix ups t t1 raw t2 :
  is_ascii ups = true ->
  read_until (PyBytes nl) (wrote ("LIST RW " +:+ ups +:+ nl) t)
  = (Ok ("BEGIN LIST RW " +:+ ups +:+ nl), t1) ->
  read_until (PyBytes ("END LIST RW " +:+ ups +:+ nl)) t1 = (Ok raw, t2) ->
  is_ascii raw = true ->
  GetRWVars ups t
  = (Ok (assign_all (well_formed_prefix ups (body_lines "RW" ups raw)) ∅), t2).
Proof.
  intros Hups Hbegin Hend Hraw. unfold GetRWVars.
  rewrite (encode_ascii_Ok _ Hups), bind_lift_Ok.
  rewrite (bind_Ok _ _ _ _ _ (write_bytes _ t)).
  rewrite (bind_Ok _ _ _ _ _ Hbegin).
  rewrite decode_ascii_Ok.
  2:{ rewrite !is_ascii_app, Hups. reflexivity. }
  rewrite bind_lift_Ok, String.eqb_refl. cbn [negb].
  rewrite (bind_Ok _ _ _ _ _ Hend).
  rewrite (decode_ascii_Ok _ Hraw), bind_lift_Ok. cbv zeta.
  rewrite try_pass_state, rw_loop_state. reflexivity.
Qed.

Lemma GetRWVars_well_formed_prefix_witness :
  GetRWVars "u" (mkTelnet rw_good_bad_good [])
  = (Ok (assign_all
           (well_formed_prefix "u"
              (body_lines "RW" "u"
                 ("VAR u a.b " +:+ dq +:+ "1 2" +:+ dq +:+ nl +:+
                  "VAR u bad" +:+ nl +:+
                  "VAR u c " +:+ dq +:+ "3" +:+ dq +:+ nl +:+
                  "END LIST RW u" +:+ nl))) ∅),
     mkTelnet EmptyString ["LIST RW u" +:+ nl])
  /\ assign_all
       (well_formed_prefix "u"
          (body_lines "RW" "u"
             ("VAR u a.b " +:+ dq +:+ "1 2" +:+ dq +:+ nl +:+
              "VAR u bad" +:+ nl +:+
              "VAR u c " +:+ dq +:+ "3" +:+ dq +:+ nl +:+
              "END LIST RW u" +:+ nl))) ∅
     = {[ "a.b" := "1 2" ]}.
Proof.
  split.
  - eapply (GetRWVars_returns_well_formed_prefix "u"
              (mkTelnet rw_good_bad_good [])).
    + reflexivity.
    + vm_compute. reflexivity.
    + vm_compute. reflexivity.
    + reflexivity.
  - vm_compute. reflexivity.
Defined.

(** C6, the claim as stated fails: in a well-framed answer whose first body
    line is malformed, the second body line is well formed and would give
    the pair of c and 3, yet the dictionary returned is empty: the line
    after the malformed one contributes nothing. *)
Lemma GetRWVars_drops_lines_after_malformed :
  rw_parse "u" ("VAR u c " +:+ dq +:+ "3" +:+ dq) = Some ("c", "3")
  /\ body_lines "RW" "u"
       ("VAR u bad" +:+ nl +:+
        "VAR u c " +:+ dq +:+ "3" +:+ dq +:+ nl +:+ "END LIST RW u" +:+ nl)
     = ["VAR u bad"; "VAR u c " +:+ dq +:+ "3" +:+ dq]
  /\ (GetRWVars "u" (mkTelnet rw_bad_then_good [])).1 = Ok ∅
  /\ ~ (exists rw_vars,
           (GetRWVars "u" (mkTelnet rw_bad_then_good [])).1 = Ok rw_vars
           /\ rw_vars !! "c" = Some "3").
Proof.
  assert (H : (GetRWVars "u" (mkTelnet rw_bad_then_good [])).1 = Ok ∅)
    by (vm_compute; reflexivity).
  split; [vm_compute; reflexivity|].
  split; [vm_compute; reflexivity|].
  split; [exact H|].
  intros [rw_vars [Hr Hc]]. rewrite H in Hr. injection Hr as <-.
  rewrite lookup_empty in Hc. discriminate.
Qed.

(** The decoding at line 200 is not inside the [try] of line 205: for an
    ASCII device, when the block read up to the END marker holds a byte
    that is not ASCII, [GetRWVars] raises [UnicodeDecodeError] and returns
    no dictionary, whatever well-formed lines the block has. *)
Theorem GetRWVars_non_ascii_block_raises ups t t1 raw t2 :
  is_ascii ups = true ->
  read_until (PyBytes nl) (wrote ("LIST RW " +:+ ups +:+ nl) t)
  = (Ok ("BEGIN LIST RW " +:+ ups +:+ nl), t1) ->
  read_until (PyBytes ("END LIST RW " +:+ ups +:+ nl)) t1 = (Ok raw, t2) ->
  is_ascii raw = false ->
  GetRWVars ups t = (Raise UnicodeDecodeError, t2).
Proof.
  intros Hups Hbegin Hend Hraw. unfold GetRWVars.
  rewrite (encode_ascii_Ok _ Hups), bind_lift_Ok.
  rewrite (bind_Ok _ _ _ _ _ (write_bytes _ t)).
  rewrite (bind_Ok _ _ _ _ _ Hbegin).
  rewrite decode_ascii_Ok.
  2:{ rewrite !is_ascii_app, Hups. reflexivity. }
  rewrite bind_lift_Ok, String.eqb_refl. cbn [negb].
  rewrite (bind_Ok _ _ _ _ _ Hend).
  unfold decode_ascii. rewrite Hraw. reflexivity.
Qed.

Lemma GetRWVars_non_ascii_block_witness :
  GetRWVars "u" (mkTelnet rw_good_then_non_ascii [])
  = (Raise UnicodeDecodeError, mkTelnet EmptyString ["LIST RW u" +:+ nl]).
Proof.
  eapply (GetRWVars_non_ascii_block_raises "u"
            (mkTelnet rw_good_then_non_ascii [])).
  - reflexivity.
  - vm_compute. reflexivity.
  - vm_compute. reflexivity.
  - reflexivity.
Defined.

(** When all body lines are well formed each of them contributes. *)
Example GetRWVars_two_variables :
  (GetRWVars "u"
     (mkTelnet ("BEGIN LIST RW u" +:+ nl +:+
                "VAR u a.b " +:+ dq +:+ "1 2" +:+ dq +:+ nl +:+
                "VAR u c " +:+ dq +:+ "3" +:+ dq +:+ nl +:+
                "END LIST RW u" +:+ nl) [])).1
  = Ok {[ "a.b" := "1 2"; "c" := "3" ]}.
Proof. vm_compute. reflexivity. Qed.

(** A writable-variable list without body lines gives the empty
    dictionary, where [GetUPSVars] raises. *)
Example GetRWVars_no_variables :
  (GetRWVars "u"
     (mkTelnet ("BEGIN LIST RW u" +:+ nl +:+ "END LIST RW u" +:+ nl) [])).1
  = Ok ∅.
Proof. vm_compute. reflexivity. Qed.

(** ** Setting a variable: SetRWVar *)

(** What [SetRWVar] does with the answer: for ASCII arguments and an ASCII
    response line, it returns OK exactly when the line is OK followed by
    a newline, and on any other line raises [PyNUTError] with the line as
    it was read for argument: line 229 does not remove the newline, which
    every other [raise] of the class does. *)
Theorem SetRWVar_result ups var value t line t' :
  is_ascii ups = true -> is_ascii var = true -> is_ascii value = true ->
  read_until (PyBytes nl)
    (wrote ("SET VAR " +:+ ups +:+ " " +:+ var +:+ " " +:+ value +:+ nl) t)
  = (Ok line, t') ->
  is_ascii line = true ->
  exists r, SetRWVar ups var value t = (r, t')
    /\ (r = Ok "OK" <-> line = "OK" +:+ nl)
    /\ (line <> "OK" +:+ nl -> r = Raise (PyNUTError (ArgStr line))).
Proof.
  intros Hups Hvar Hval Hread Hline. unfold SetRWVar.
  rewrite (encode_ascii_Ok _ Hups), bind_lift_Ok.
  rewrite (encode_ascii_Ok _ Hvar), bind_lift_Ok.
  rewrite (encode_ascii_Ok _ Hval), bind_lift_Ok.
  rewrite (bind_Ok _ _ _ _ _ (write_bytes _ t)).
  rewrite (bind_Ok _ _ _ _ _ Hread).
  rewrite (decode_ascii_Ok _ Hline), bind_lift_Ok.
  destruct (String.eqb_spec line ("OK" +:+ nl)) as [->|Hne].
  - exists (Ok "OK"). split; [reflexivity|]. split; [tauto | congruence].
  - exists (Raise (PyNUTError (ArgStr line))). split; [reflexivity|].
    split; [split; [discriminate | contradiction] | reflexivity].
Qed.

Lemma SetRWVar_result_witness :
  exists r,
    SetRWVar "ups1" "battery.charge.low" "20"
      (mkTelnet ("ERR INVALID-VALUE" +:+ nl) [])
    = (r, mkTelnet EmptyString
            ["SET VAR ups1 battery.charge.low 20" +:+ nl])
    /\ (r = Ok "OK" <-> "ERR INVALID-VALUE" +:+ nl = "OK" +:+ nl)
    /\ ("ERR INVALID-VALUE" +:+ nl <> "OK" +:+ nl ->
        r = Raise (PyNUTError (ArgStr ("ERR INVALID-VALUE" +:+ nl)))).
Proof.
  apply (SetRWVar_result "ups1" "battery.charge.low" "20"
           (mkTelnet ("ERR INVALID-VALUE" +:+ nl) [])
           ("ERR INVALID-VALUE" +:+ nl)); reflexivity.
Defined.

(** C7: answered with ERR INVALID-VALUE and a newline, [SetRWVar] raises
    an error whose argument is that line with its newline, and not the
    text ERR INVALID-VALUE that the claim names and that the siblings,
    which strip the newline before raising, would carry. *)
Lemma SetRWVar_error_keeps_newline :
  (SetRWVar "ups1" "battery.charge.low" "20"
     (mkTelnet ("ERR INVALID-VALUE" +:+ nl) [])).1
  = Raise (PyNUTError (ArgStr ("ERR INVALID-VALUE" +:+ nl)))
  /\ (SetRWVar "ups1" "battery.charge.low" "20"
        (mkTelnet ("ERR INVALID-VALUE" +:+ nl) [])).1
     <> Raise (PyNUTError (ArgStr "ERR INVALID-VALUE")).
Proof. split; [reflexivity | vm_compute; discriminate]. Qed.

(** ** Force shutdown: FSD *)

(** C2: on a server that grants master level and would acknowledge the
    forced shutdown, [FSD] writes the MASTER line, then raises [TypeError]
    at the second [write] (line 263 passes a [str]): the FSD line is not
    written, the second answer is not read, and OK is not returned. *)
Theorem FSD_granted_raises_TypeError (history : list string) :
  FSD "dev1" (mkTelnet fsd_granted history)
  = (Raise TypeError,
     mkTelnet ("OK FSD-SET" +:+ nl) (history ++ ["MASTER dev1" +:+ nl])).
Proof. vm_compute. reflexivity. Qed.

(** The value line 263 hands to [write] is never the [bytes] line FSD
    followed by the device. *)
Lemma FSD_line_is_not_the_command ups_ascii :
  FSD_line ups_ascii <> PyBytes ("FSD " +:+ ups_ascii +:+ nl).
Proof. discriminate. Qed.

(** Whatever the device and the server, [FSD] never returns: every run ends
    in an exception, and at most the MASTER line has been written. *)
Lemma FSD_never_returns ups t :
  (forall v, (FSD ups t).1 <> Ok v)
  /\ (sent (FSD ups t).2 = sent t
      \/ sent (FSD ups t).2 = sent t ++ ["MASTER " +:+ ups +:+ nl]).
Proof.
  unfold FSD, bind, lift, encode_ascii.
  destruct (is_ascii ups); [|split; [discriminate | now left]].
  rewrite write_bytes.
  destruct (read_until (PyBytes nl) (wrote ("MASTER " +:+ ups +:+ nl) t))
    as [[raw|e] t1] eqn:Hread;
    apply read_until_sent in Hread; simpl in Hread.
  - unfold decode_ascii. destruct (is_ascii raw).
    + destruct (negb (raw =? "OK MASTER-GRANTED" +:+ nl)); simpl;
        (split; [discriminate | right; exact Hread]).
    + split; [discriminate | right; exact Hread].
  - split; [discriminate | right; exact Hread].
Qed.

(** The first step is as documented: when the answer to MASTER is an ASCII
    line other than OK MASTER-GRANTED, [FSD] raises the master-level error
    and only the MASTER line has been written. *)
Lemma FSD_master_refused ups t line t' :
  is_ascii ups = true ->
  read_until (PyBytes nl) (wrote ("MASTER " +:+ ups +:+ nl) t) = (Ok line, t') ->
  is_ascii line = true ->
  line <> "OK MASTER-GRANTED" +:+ nl ->
  FSD ups t
  = (Raise (PyNUTError
              (ArgPair "Master level function are not available" EmptyString)),
     t')
  /\ sent t' = sent t ++ ["MASTER " +:+ ups +:+ nl].
Proof.
  intros Hups Hread Hline Hne. split.
  - unfold FSD.
    rewrite (encode_ascii_Ok _ Hups), bind_lift_Ok.
    rewrite (bind_Ok _ _ _ _ _ (write_bytes _ t)).
    rewrite (bind_Ok _ _ _ _ _ Hread).
    rewrite (decode_ascii_Ok _ Hline), bind_lift_Ok.
    destruct (String.eqb_spec line ("OK MASTER-GRANTED" +:+ nl)) as [->|_];
      [contradiction | reflexivity].
  - apply read_until_sent in Hread. exact Hread.
Qed.

Lemma FSD_master_refused_witness :
  FSD "dev1" (mkTelnet ("ERR ACCESS-DENIED" +:+ nl +:+ "OK FSD-SET" +:+ nl) [])
  = (Raise (PyNUTError
              (ArgPair "Master level function are not available" EmptyString)),
     mkTelnet ("OK FSD-SET" +:+ nl) ["MASTER dev1" +:+ nl])
  /\ sent (mkTelnet ("OK FSD-SET" +:+ nl) ["MASTER dev1" +:+ nl])
     = sent (mkTelnet ("ERR ACCESS-DENIED" +:+ nl +:+ "OK FSD-SET" +:+ nl) [])
       ++ ["MASTER " +:+ "dev1" +:+ nl].
Proof.
  apply (FSD_master_refused "dev1"
           (mkTelnet ("ERR ACCESS-DENIED" +:+ nl +:+ "OK FSD-SET" +:+ nl) [])
           ("ERR ACCESS-DENIED" +:+ nl)).
  - reflexivity.
  - reflexivity.
  - reflexivity.
  - vm_compute. discriminate.
Defined.

(** ** Help and version *)

(** The sibling [help] passes a [bytes] delimiter and returns the line. *)
Lemma help_returns_line (history : list string) :
  help (mkTelnet ("Commands: HELP VER" +:+ nl) history)
  = (Ok ("Commands: HELP VER" +:+ nl),
     mkTelnet EmptyString (history ++ ["HELP" +:+ nl])).
Proof. vm_compute. reflexivity. Qed.

(** C8: [ver] writes the request VER and then raises [TypeError] in
    [read_until], whatever the server sends: the delimiter at line 288 is
    a [str].  No version text is ever returned. *)
Theorem ver_raises_TypeError (t : Telnet) :
  ver t = (Raise TypeError, wrote ("VER" +:+ nl) t).
Proof. reflexivity. Qed.

(** ** Client enumeration: ListClients *)

(** C5: [ListClients] called without a device filter, that is with its
    default [None], raises [AttributeError] at line 294 for every state of
    the connection: nothing is written and no mapping is returned. *)
Theorem ListClients_no_filter_raises (t : Telnet) :
  ListClients None t = (Raise AttributeError, t).
Proof. reflexivity. Qed.

(** With the empty text as filter the same exchange goes through: the
    clients come back in the order the server reported them. *)
Lemma ListClients_empty_filter_scenario_D (history : list string) :
  ListClients (Some EmptyString) (mkTelnet scenarioD history)
  = (Ok {[ "dev1" := ["10.0.0.1"; "10.0.0.2"] ]},
     mkTelnet EmptyString (history ++ ["LIST CLIENTS" +:+ nl])).
Proof. vm_compute. reflexivity. Qed.

(** C1, as amended: for every non-empty ASCII filter that is not a key of
    the mapping returned by the device enumeration [ListClients] runs at
    line 298, [ListClients] raises the not-a-valid-UPS error; by then the
    request LIST UPS of that enumeration has been written, and nothing
    else: no LIST CLIENTS line is written. *)
Theorem ListClients_unknown_filter ups t known t1 :
  ups <> EmptyString ->
  is_ascii ups = true ->
  GetUPSList t = (Ok known, t1) ->
  known !! ups = None ->
  ListClients (Some ups) t
  = (Raise (PyNUTError (ArgStr (ups +:+ " is not a valid UPS"))), t1)
  /\ sent t1 = sent t ++ ["LIST UPS" +:+ nl].
Proof.
  intros Hne Hups Hlist Hkey. split.
  - unfold ListClients.
    rewrite (encode_ascii_Ok _ Hups), bind_lift_Ok.
    assert (Htruthy : truthy (Some ups) = true).
    { simpl. destruct (String.eqb_spec ups EmptyString); [contradiction|reflexivity]. }
    rewrite Htruthy. unfold bind at 1. unfold bind at 1. rewrite Hlist. simpl.
    rewrite bool_decide_eq_false_2; [reflexivity|].
    rewrite elem_of_dom, Hkey. intros [? [=]].
  - pose proof (GetUPSList_sent t) as Hs. rewrite Hlist in Hs. exact Hs.
Qed.

Lemma ListClients_unknown_filter_witness :
  ListClients (Some "nope") (mkTelnet scenarioA [])
  = (Raise (PyNUTError (ArgStr ("nope" +:+ " is not a valid UPS"))),
     mkTelnet EmptyString ["LIST UPS" +:+ nl])
  /\ sent (mkTelnet EmptyString ["LIST UPS" +:+ nl])
     = sent (mkTelnet scenarioA []) ++ ["LIST UPS" +:+ nl].
Proof.
  apply (ListClients_unknown_filter "nope" (mkTelnet scenarioA [])
           {[ "ups1" := "Desc one"; "ups2" := "Desc two" ]}).
  - discriminate.
  - reflexivity.
  - vm_compute. reflexivity.
  - vm_compute. reflexivity.
Defined.

(** C1, the claim as stated fails: with the filter nope, which is not a key
    of the enumeration answered by scenario A, [ListClients] raises the
    validation error only after the bytes of LIST UPS went to the
    transport. *)
Lemma ListClients_validation_writes_first :
  (exists known t1,
      GetUPSList (mkTelnet scenarioA []) = (Ok known, t1)
      /\ known !! "nope" = None)
  /\ (ListClients (Some "nope") (mkTelnet scenarioA [])).1
     = Raise (PyNUTError (ArgStr "nope is not a valid UPS"))
  /\ sent (ListClients (Some "nope") (mkTelnet scenarioA [])).2
     = ["LIST UPS" +:+ nl]
  /\ sent (ListClients (Some "nope") (mkTelnet scenarioA [])).2 <> [].
Proof.
  split; [|split; [|split]].
  - eexists _, _. split; vm_compute; reflexivity.
  - vm_compute. reflexivity.
  - vm_compute. reflexivity.
  - vm_compute. discriminate.
Qed.

(** An empty filter is not validated at all: it is false at line 298. *)
Lemma ListClients_empty_filter_not_validated (history : list string) :
  (ListClients (Some EmptyString) (mkTelnet scenarioD history)).1
  = Ok {[ "dev1" := ["10.0.0.1"; "10.0.0.2"] ]}.
Proof. vm_compute. reflexivity. Qed.

(** ** More on text: lengths, slices, splitting *)

Lemma length_app a b :
  String.length (a +:+ b) = String.length a + String.length b.
Proof.
  induction a as [|x a IH]; [reflexivity|].
  rewrite append_cons. simpl. now rewrite IH.
Qed.

Lemma take_length s : take (String.length s) s = s.
Proof. induction s as [|x s IH]; [reflexivity|]. simpl. now rewrite IH. Qed.

Lemma take_app_exact a b : take (String.length a) (a +:+ b) = a.
Proof.
  replace (String.length a) with (String.length a + 0) by lia.
  now rewrite take_app_length, take_0, append_empty_r.
Qed.

Lemma drop_app_exact a b : drop (String.length a) (a +:+ b) = b.
Proof.
  replace (String.length a) with (String.length a + 0) by lia.
  now rewrite drop_app_length, drop_0.
Qed.

(** [(p + r)[:len(p)]] is [p]. *)
Lemma slice_prefix p r : slice None (Some (len p)) (p +:+ r) = p.
Proof.
  unfold slice, clamp, len. rewrite length_app.
  destruct (Z.ltb_spec (Z.of_nat (String.length p)) 0); [lia|].
  replace (Z.to_nat _) with (String.length p) by lia.
  now rewrite take_app_exact, drop_0.
Qed.

(** [(p + r)[len(p):]] is [r]. *)
Lemma slice_suffix p r : slice (Some (len p)) None (p +:+ r) = r.
Proof.
  unfold slice, clamp, len. rewrite Nat2Z.id, take_length, length_app.
  destruct (Z.ltb_spec (Z.of_nat (String.length p)) 0); [lia|].
  replace (Z.to_nat _) with (String.length p) by lia.
  apply drop_app_exact.
Qed.

(** Cutting from the end the marker line and the newline before it. *)
Lemma slice_cut_end a e :
  slice None (Some (0 - (len e + 1))%Z) (a +:+ nl +:+ e) = a.
Proof.
  unfold slice, clamp, len. rewrite !length_app. change (String.length nl) with 1.
  destruct (Z.ltb_spec (0 - (Z.of_nat (String.length e) + 1)) 0); [|lia].
  replace (Z.to_nat _) with (String.length a) by lia.
  now rewrite take_app_exact, drop_0.
Qed.

Lemma split_absent c s : contains c s = false -> split c s = [s].
Proof.
  induction s as [|x s IH]; intros H; [reflexivity|].
  simpl in H. apply orb_false_elim in H as [Hx Hs].
  simpl. rewrite Hx, (IH Hs). reflexivity.
Qed.

(** Splitting cuts at the first separator. *)
Lemma split_app_sep c a b :
  contains c a = false -> split c (a +:+ String c b) = a :: split c b.
Proof.
  induction a as [|x a IH]; intros H.
  - simpl. now rewrite Ascii.eqb_refl.
  - simpl in H. apply orb_false_elim in H as [Hx Hs].
    rewrite append_cons. simpl. rewrite Hx, (IH Hs). reflexivity.
Qed.

Lemma replace_absent c new s : contains c s = false -> replace c new s = s.
Proof.
  induction s as [|x s IH]; intros H; [reflexivity|].
  simpl in H. apply orb_false_elim in H as [Hx Hs].
  simpl. rewrite Hx, (IH Hs). reflexivity.
Qed.

Lemma replace_app c new a b :
  replace c new (a +:+ b) = replace c new a +:+ replace c new b.
Proof.
  induction a as [|x a IH]; [reflexivity|].
  rewrite append_cons. simpl. destruct (Ascii.eqb x c).
  - now rewrite IH, append_assoc.
  - now rewrite IH.
Qed.

(** Stripping the newline of a line that has only the final one. *)
Lemma replace_line s :
  contains LF s = false -> replace LF EmptyString (s +:+ nl) = s.
Proof.
  intros H. rewrite replace_app, (replace_absent _ _ _ H).
  apply append_empty_r.
Qed.

Lemma plain_ascii s : plain s = true -> is_ascii s = true.
Proof.
  unfold plain. intros H. apply andb_prop in H as [H _].
  now apply andb_prop in H as [H _].
Qed.

Lemma plain_DQ s : plain s = true -> contains DQ s = false.
Proof.
  unfold plain. intros H. apply andb_prop in H as [H _].
  apply andb_prop in H as [_ H]. now apply negb_true_iff in H.
Qed.

Lemma plain_LF s : plain s = true -> contains LF s = false.
Proof.
  unfold plain. intros H. apply andb_prop in H as [_ H].
  now apply negb_true_iff in H.
Qed.

Lemma token_plain s : token s = true -> plain s = true.
Proof. unfold token. intros H. now apply andb_prop in H as [H _]. Qed.

Lemma token_SP s : token s = true -> contains SP s = false.
Proof.
  unfold token. intros H. apply andb_prop in H as [_ H].
  now apply negb_true_iff in H.
Qed.

(** ** Session start and end *)

(** The destructor never raises and never writes: the [str] it passes to
    [write] makes [write] raise, and the handler swallows that.  No LOGOUT
    line reaches the server. *)
Theorem del_writes_nothing (t : Telnet) : __del__ t = (Ok tt, t).
Proof. reflexivity. Qed.

(** Authentication looks at the first two characters of each answer only:
    for ASCII credentials, when the server answers the USERNAME line and
    then the PASSWORD line with lines that start with OK, whatever
    follows on those lines, the handshake succeeds, having written the two
    lines and read exactly the two answers. *)
Theorem connect_accepts_OK_prefix login password tail1 tail2 rest history :
  is_ascii login = true -> is_ascii password = true ->
  is_ascii tail1 = true -> contains LF tail1 = false ->
  is_ascii tail2 = true -> contains LF tail2 = false ->
  __connect (Some login) (Some password)
    (mkTelnet (("OK" +:+ tail1) +:+ nl +:+ ("OK" +:+ tail2) +:+ nl +:+ rest)
              history)
  = (Ok tt,
     mkTelnet rest (history ++ ["USERNAME " +:+ login +:+ nl;
                                "PASSWORD " +:+ password +:+ nl])).
Proof.
  intros Hl Hp Ha1 Hn1 Ha2 Hn2. unfold __connect.
  erewrite bind_Ok.
  2:{ rewrite (encode_ascii_Ok _ Hl), bind_lift_Ok.
      rewrite (bind_Ok _ _ _ _ _ (write_bytes _ _)). unfold wrote. cbn [cookedq sent].
      rewrite (bind_Ok _ _ _ _ _ (read_until_line ("OK" +:+ tail1) _ _ Hn1)).
      rewrite decode_ascii_Ok by (rewrite !is_ascii_app, Ha1; reflexivity).
      rewrite bind_lift_Ok.
      rewrite (append_assoc "OK" tail1 nl), (slice_prefix "OK").
      reflexivity. }
  rewrite encode_ascii_Ok by (rewrite !is_ascii_app, Hp; reflexivity).
  rewrite bind_lift_Ok.
  rewrite (bind_Ok _ _ _ _ _ (write_bytes _ _)). unfold wrote. cbn [cookedq sent].
  rewrite (bind_Ok _ _ _ _ _ (read_until_line ("OK" +:+ tail2) _ _ Hn2)).
  rewrite decode_ascii_Ok by (rewrite !is_ascii_app, Ha2; reflexivity).
  rewrite bind_lift_Ok.
  rewrite (append_assoc "OK" tail2 nl), (slice_prefix "OK").
  rewrite <- app_assoc. reflexivity.
Qed.

Lemma connect_accepts_OK_prefix_witness :
  __connect (Some "admin") (Some "secret")
    (mkTelnet (("OK" +:+ "AY, not checked") +:+ nl
               +:+ ("OK" +:+ EmptyString) +:+ nl +:+ "later") [])
  = (Ok tt,
     mkTelnet "later" ([] ++ ["USERNAME " +:+ "admin" +:+ nl;
                              "PASSWORD " +:+ "secret" +:+ nl])).
Proof.
  apply (connect_accepts_OK_prefix "admin" "secret" "AY, not checked"
           EmptyString "later" []); reflexivity.
Defined.

(** A refused user name ends the handshake: for an ASCII login, when the
    answer to the USERNAME line is an ASCII line that does not start with
    OK, [__connect] raises [PyNUTError] carrying that answer without
    its newlines, and the password, if any, is never written. *)
Theorem connect_username_refused login password t line t' :
  is_ascii login = true ->
  read_until (PyBytes nl) (wrote ("USERNAME " +:+ login +:+ nl) t)
  = (Ok line, t') ->
  is_ascii line = true ->
  slice None (Some 2%Z) line <> "OK" ->
  __connect (Some login) password t
  = (Raise (PyNUTError (ArgStr (replace LF EmptyString line))), t')
  /\ sent t' = sent t ++ ["USERNAME " +:+ login +:+ nl].
Proof.
  intros Hl Hread Hline Hne. split.
  - unfold __connect. erewrite bind_Raise; [reflexivity|].
    rewrite (encode_ascii_Ok _ Hl), bind_lift_Ok.
    rewrite (bind_Ok _ _ _ _ _ (write_bytes _ _)).
    rewrite (bind_Ok _ _ _ _ _ Hread).
    rewrite (decode_ascii_Ok _ Hline), bind_lift_Ok.
    destruct (String.eqb_spec (slice None (Some 2%Z) line) "OK");
      [contradiction | reflexivity].
  - apply read_until_sent in Hread. exact Hread.
Qed.

Lemma connect_username_refused_witness :
  __connect (Some "admin") (Some "secret")
    (mkTelnet ("ERR ACCESS-DENIED" +:+ nl +:+ "OK" +:+ nl) [])
  = (Raise (PyNUTError
              (ArgStr (replace LF EmptyString ("ERR ACCESS-DENIED" +:+ nl)))),
     mkTelnet ("OK" +:+ nl) ["USERNAME admin" +:+ nl])
  /\ sent (mkTelnet ("OK" +:+ nl) ["USERNAME admin" +:+ nl])
     = sent (mkTelnet ("ERR ACCESS-DENIED" +:+ nl +:+ "OK" +:+ nl) [])
       ++ ["USERNAME " +:+ "admin" +:+ nl].
Proof.
  apply (connect_username_refused "admin" (Some "secret")
           (mkTelnet ("ERR ACCESS-DENIED" +:+ nl +:+ "OK" +:+ nl) [])
           ("ERR ACCESS-DENIED" +:+ nl)).
  - reflexivity.
  - reflexivity.
  - reflexivity.
  - vm_compute. discriminate.
Defined.

(** The two credentials are handled apart: with a password and no login,
    [__connect] writes the PASSWORD line alone, and a refusal (an ASCII
    answer that does not start with OK) raises [PyNUTError] with the answer
    stripped of its newlines. *)
Theorem connect_password_without_login password t line t' :
  is_ascii password = true ->
  read_until (PyBytes nl) (wrote ("PASSWORD " +:+ password +:+ nl) t)
  = (Ok line, t') ->
  is_ascii line = true ->
  __connect None (Some password) t
  = (if slice None (Some 2%Z) line =? "OK" then Ok tt
     else Raise (PyNUTError (ArgStr (replace LF EmptyString line))), t')
  /\ sent t' = sent t ++ ["PASSWORD " +:+ password +:+ nl].
Proof.
  intros Hp Hread Hline. split.
  - unfold __connect. rewrite (bind_Ok _ _ t tt t) by reflexivity.
    rewrite encode_ascii_Ok by (rewrite !is_ascii_app, Hp; reflexivity).
    rewrite bind_lift_Ok.
    rewrite (bind_Ok _ _ _ _ _ (write_bytes _ _)).
    rewrite (bind_Ok _ _ _ _ _ Hread).
    rewrite (decode_ascii_Ok _ Hline), bind_lift_Ok.
    destruct (slice None (Some 2%Z) line =? "OK"); reflexivity.
  - apply read_until_sent in Hread. exact Hread.
Qed.

Lemma connect_password_without_login_witness :
  __connect None (Some "secret") (mkTelnet ("OK" +:+ nl) [])
  = (if slice None (Some 2%Z) ("OK" +:+ nl) =? "OK" then Ok tt
     else Raise (PyNUTError (ArgStr (replace LF EmptyString ("OK" +:+ nl)))),
     mkTelnet EmptyString ["PASSWORD secret" +:+ nl])
  /\ sent (mkTelnet EmptyString ["PASSWORD secret" +:+ nl])
     = sent (mkTelnet ("OK" +:+ nl) []) ++ ["PASSWORD " +:+ "secret" +:+ nl].
Proof.
  apply (connect_password_without_login "secret" (mkTelnet ("OK" +:+ nl) [])
           ("OK" +:+ nl)); reflexivity.
Defined.

(** ** Running a command and asking for help *)

(** For ASCII arguments and an ASCII answer, [RunUPSCommand] returns OK
    exactly when the answer is OK followed by a newline; on any other
    answer it raises [PyNUTError] carrying the answer with its newlines
    removed. *)
Theorem RunUPSCommand_result ups command t line t' :
  is_ascii ups = true -> is_ascii command = true ->
  read_until (PyBytes nl)
    (wrote ("INSTCMD " +:+ ups +:+ " " +:+ command +:+ nl) t)
  = (Ok line, t') ->
  is_ascii line = true ->
  exists r, RunUPSCommand ups command t = (r, t')
    /\ (r = Ok "OK" <-> line = "OK" +:+ nl)
    /\ (line <> "OK" +:+ nl ->
        r = Raise (PyNUTError (ArgStr (replace LF EmptyString line)))).
Proof.
  intros Hups Hcmd Hread Hline. unfold RunUPSCommand.
  rewrite (encode_ascii_Ok _ Hups), bind_lift_Ok.
  rewrite (encode_ascii_Ok _ Hcmd), bind_lift_Ok.
  rewrite (bind_Ok _ _ _ _ _ (write_bytes _ t)).
  rewrite (bind_Ok _ _ _ _ _ Hread).
  rewrite (decode_ascii_Ok _ Hline), bind_lift_Ok.
  destruct (String.eqb_spec line ("OK" +:+ nl)) as [->|Hne].
  - exists (Ok "OK"). split; [reflexivity|]. split; [tauto | congruence].
  - eexists. split; [reflexivity|].
    split; [split; [discriminate | contradiction] | reflexivity].
Qed.

Lemma RunUPSCommand_result_witness :
  exists r,
    RunUPSCommand "ups1" "beeper.on" (mkTelnet ("ERR CMD-NOT-SUPPORTED" +:+ nl) [])
    = (r, mkTelnet EmptyString ["INSTCMD ups1 beeper.on" +:+ nl])
    /\ (r = Ok "OK" <-> "ERR CMD-NOT-SUPPORTED" +:+ nl = "OK" +:+ nl)
    /\ ("ERR CMD-NOT-SUPPORTED" +:+ nl <> "OK" +:+ nl ->
        r = Raise (PyNUTError
                     (ArgStr (replace LF EmptyString
                                (("ERR CMD-NOT-SUPPORTED" +:+ nl)))))).
Proof.
  apply (RunUPSCommand_result "ups1" "beeper.on"
           (mkTelnet ("ERR CMD-NOT-SUPPORTED" +:+ nl) [])
           ("ERR CMD-NOT-SUPPORTED" +:+ nl)); reflexivity.
Defined.

(** [help] hands back the first line of the answer as it came, final
    newline included, and leaves what follows it unread: for every ASCII
    line without inner newline at the head of the queue. *)
Theorem help_returns_first_line line rest history :
  is_ascii line = true -> contains LF line = false ->
  help (mkTelnet (line +:+ nl +:+ rest) history)
  = (Ok (line +:+ nl), mkTelnet rest (history ++ ["HELP" +:+ nl])).
Proof.
  intros Ha Hn. unfold help.
  rewrite (bind_Ok _ _ _ _ _ (write_bytes _ _)). unfold wrote. cbn [cookedq sent].
  rewrite (bind_Ok _ _ _ _ _ (read_until_line line _ _ Hn)).
  rewrite decode_ascii_Ok by (rewrite is_ascii_app, Ha; reflexivity).
  reflexivity.
Qed.

Lemma help_returns_first_line_witness :
  help (mkTelnet ("Commands: HELP VER GET LIST" +:+ nl +:+ "more") [])
  = (Ok ("Commands: HELP VER GET LIST" +:+ nl),
     mkTelnet "more" ([] ++ ["HELP" +:+ nl])).
Proof.
  apply (help_returns_first_line "Commands: HELP VER GET LIST" "more" []);
    reflexivity.
Defined.

(** ** A list that does not begin as expected *)

(** When the first line of the answer to LIST UPS is an ASCII line other
    than the BEGIN line, [GetUPSList] raises [PyNUTError] carrying that line
    without its newlines; it has read that one line only. *)
Theorem GetUPSList_begin_mismatch t line t' :
  read_until (PyBytes nl) (wrote ("LIST UPS" +:+ nl) t) = (Ok line, t') ->
  is_ascii line = true ->
  line <> "BEGIN LIST UPS" +:+ nl ->
  GetUPSList t = (Raise (PyNUTError (ArgStr (replace LF EmptyString line))), t').
Proof.
  intros Hread Hline Hne. unfold GetUPSList.
  rewrite (bind_Ok _ _ _ _ _ (write_bytes _ t)).
  rewrite (bind_Ok _ _ _ _ _ Hread).
  rewrite (decode_ascii_Ok _ Hline), bind_lift_Ok.
  destruct (String.eqb_spec line ("BEGIN LIST UPS" +:+ nl));
    [contradiction | reflexivity].
Qed.

Lemma GetUPSList_begin_mismatch_witness :
  GetUPSList (mkTelnet ("ERR ACCESS-DENIED" +:+ nl +:+ "later") [])
  = (Raise (PyNUTError
              (ArgStr (replace LF EmptyString ("ERR ACCESS-DENIED" +:+ nl)))),
     mkTelnet "later" ["LIST UPS" +:+ nl]).
Proof.
  apply (GetUPSList_begin_mismatch
           (mkTelnet ("ERR ACCESS-DENIED" +:+ nl +:+ "later") [])
           ("ERR ACCESS-DENIED" +:+ nl)).
  - reflexivity.
  - reflexivity.
  - vm_compute. discriminate.
Defined.

(** Where [GetUPSVars] returns the text ERR, its two siblings raise: for an
    ASCII device and an ASCII first line other than the BEGIN line of their
    list, [GetUPSCommands] and [GetRWVars] raise [PyNUTError] carrying that
    line without its newlines, and no description request is written. *)
Theorem GetUPSCommands_GetRWVars_begin_mismatch ups t line tc tr :
  is_ascii ups = true ->
  is_ascii line = true ->
  read_until (PyBytes nl) (wrote ("LIST CMD " +:+ ups +:+ nl) t) = (Ok line, tc) ->
  read_until (PyBytes nl) (wrote ("LIST RW " +:+ ups +:+ nl) t) = (Ok line, tr) ->
  line <> "BEGIN LIST CMD " +:+ ups +:+ nl ->
  line <> "BEGIN LIST RW " +:+ ups +:+ nl ->
  GetUPSCommands ups t
  = (Raise (PyNUTError (ArgStr (replace LF EmptyString line))), tc)
  /\ GetRWVars ups t
     = (Raise (PyNUTError (ArgStr (replace LF EmptyString line))), tr)
  /\ sent tc = sent t ++ ["LIST CMD " +:+ ups +:+ nl].
Proof.
  intros Hups Hline Hc Hr Hnc Hnr. split; [|split].
  - unfold GetUPSCommands.
    rewrite (encode_ascii_Ok _ Hups), bind_lift_Ok.
    rewrite (bind_Ok _ _ _ _ _ (write_bytes _ t)).
    rewrite (bind_Ok _ _ _ _ _ Hc).
    rewrite (decode_ascii_Ok _ Hline), bind_lift_Ok.
    destruct (String.eqb_spec line ("BEGIN LIST CMD " +:+ ups +:+ nl));
      [contradiction | reflexivity].
  - unfold GetRWVars.
    rewrite (encode_ascii_Ok _ Hups), bind_lift_Ok.
    rewrite (bind_Ok _ _ _ _ _ (write_bytes _ t)).
    rewrite (bind_Ok _ _ _ _ _ Hr).
    rewrite (decode_ascii_Ok _ Hline), bind_lift_Ok.
    destruct (String.eqb_spec line ("BEGIN LIST RW " +:+ ups +:+ nl));
      [contradiction | reflexivity].
  - apply read_until_sent in Hc. exact Hc.
Qed.

Lemma GetUPSCommands_GetRWVars_begin_mismatch_witness :
  GetUPSCommands "ups9" (mkTelnet ("ERR UNKNOWN-UPS" +:+ nl) [])
  = (Raise (PyNUTError
              (ArgStr (replace LF EmptyString ("ERR UNKNOWN-UPS" +:+ nl)))),
     mkTelnet EmptyString ["LIST CMD ups9" +:+ nl])
  /\ GetRWVars "ups9" (mkTelnet ("ERR UNKNOWN-UPS" +:+ nl) [])
     = (Raise (PyNUTError
                 (ArgStr (replace LF EmptyString ("ERR UNKNOWN-UPS" +:+ nl)))),
        mkTelnet EmptyString ["LIST RW ups9" +:+ nl])
  /\ sent (mkTelnet EmptyString ["LIST CMD ups9" +:+ nl])
     = sent (mkTelnet ("ERR UNKNOWN-UPS" +:+ nl) [])
       ++ ["LIST CMD " +:+ "ups9" +:+ nl].
Proof.
  apply (GetUPSCommands_GetRWVars_begin_mismatch "ups9"
           (mkTelnet ("ERR UNKNOWN-UPS" +:+ nl) [])
           ("ERR UNKNOWN-UPS" +:+ nl)).
  - reflexivity.
  - reflexivity.
  - reflexivity.
  - reflexivity.
  - vm_compute. discriminate.
  - vm_compute. discriminate.
Defined.

(** ** Lists without body lines *)

(** The description lookup writes its one request, whatever comes back. *)
Lemma cmd_desc_sent ups ups_ascii var t :
  is_ascii var = true ->
  sent (cmd_desc ups ups_ascii var t).2
  = sent t ++ ["GET CMDDESC " +:+ ups_ascii +:+ var +:+ nl].
Proof.
  intros Hvar. unfold cmd_desc, try_except.
  rewrite (encode_ascii_Ok _ Hvar), bind_lift_Ok.
  rewrite (bind_Ok _ _ _ _ _ (write_bytes _ t)).
  unfold bind.
  destruct (read_until (PyBytes nl) _) as [[temp|e] t1] eqn:Hread;
    apply read_until_sent in Hread; exact Hread.
Qed.

(** A command list with zero body lines does not give the empty dictionary:
    for an ASCII device without newline, [GetUPSCommands] returns the
    dictionary whose one entry has the empty name and the empty
    description, after asking the server to describe the empty command. *)
Theorem GetUPSCommands_no_commands ups rest history :
  is_ascii ups = true ->
  contains LF ups = false ->
  (GetUPSCommands ups
     (mkTelnet (("BEGIN LIST CMD " +:+ ups +:+ nl)
                +:+ ("END LIST CMD " +:+ ups +:+ nl) +:+ rest) history)).1
  = Ok {[ EmptyString := EmptyString ]}
  /\ sent (GetUPSCommands ups
             (mkTelnet (("BEGIN LIST CMD " +:+ ups +:+ nl)
                        +:+ ("END LIST CMD " +:+ ups +:+ nl) +:+ rest)
                       history)).2
     = history ++ ["LIST CMD " +:+ ups +:+ nl; "GET CMDDESC " +:+ ups +:+ nl].
Proof.
  intros Hups Hnl. unfold GetUPSCommands.
  rewrite (encode_ascii_Ok _ Hups), bind_lift_Ok.
  rewrite (bind_Ok _ _ _ _ _ (write_bytes _ _)). unfold wrote. cbn [cookedq sent].
  rewrite <- (append_assoc "BEGIN LIST CMD " ups nl).
  rewrite (append_assoc ("BEGIN LIST CMD " +:+ ups) nl).
  assert (Hline : contains LF ("BEGIN LIST CMD " +:+ ups) = false).
  { rewrite contains_app, Hnl. reflexivity. }
  rewrite (bind_Ok _ _ _ _ _ (read_until_line _ _ _ Hline)).
  rewrite decode_ascii_Ok by (rewrite !is_ascii_app, Hups; reflexivity).
  rewrite bind_lift_Ok, append_assoc, String.eqb_refl. cbn [negb].
  rewrite (bind_Ok _ _ _ _ _ (read_until_here _ _ _)).
  rewrite decode_ascii_Ok by (rewrite !is_ascii_app, Hups; reflexivity).
  rewrite bind_lift_Ok, slice_past_start.
  cbn [split foldM]. rewrite slice_empty. cbn [split index lookup list_lookup].
  unfold bind, lift, ret. cbn [replace].
  pose proof (cmd_desc_falls_back ups ups EmptyString
                (mkTelnet rest (history ++ ["LIST CMD " +:+ ups +:+ nl]))) as Hd.
  pose proof (cmd_desc_sent ups ups EmptyString
                (mkTelnet rest (history ++ ["LIST CMD " +:+ ups +:+ nl]))
                eq_refl) as Hs.
  destruct (cmd_desc ups ups EmptyString _) as [r t1].
  cbn [fst snd] in Hd, Hs. subst r. cbn [fst snd sent] in *.
  split; [reflexivity|]. rewrite Hs, <- app_assoc. reflexivity.
Qed.

Lemma GetUPSCommands_no_commands_witness :
  (GetUPSCommands "ups1"
     (mkTelnet (("BEGIN LIST CMD " +:+ "ups1" +:+ nl)
                +:+ ("END LIST CMD " +:+ "ups1" +:+ nl) +:+ EmptyString) [])).1
  = Ok {[ EmptyString := EmptyString ]}
  /\ sent (GetUPSCommands "ups1"
             (mkTelnet (("BEGIN LIST CMD " +:+ "ups1" +:+ nl)
                        +:+ ("END LIST CMD " +:+ "ups1" +:+ nl) +:+ EmptyString)
                       [])).2
     = [] ++ ["LIST CMD " +:+ "ups1" +:+ nl; "GET CMDDESC " +:+ "ups1" +:+ nl].
Proof.
  apply (GetUPSCommands_no_commands "ups1" EmptyString []); reflexivity.
Defined.

(** A writable-variable list with zero body lines gives the empty
    dictionary, for every ASCII device without newline: the index error
    that [GetUPSVars] lets through is swallowed here. *)
Theorem GetRWVars_no_variables_empty ups rest history :
  is_ascii ups = true ->
  contains LF ups = false ->
  GetRWVars ups
    (mkTelnet (("BEGIN LIST RW " +:+ ups +:+ nl)
               +:+ ("END LIST RW " +:+ ups +:+ nl) +:+ rest) history)
  = (Ok ∅, mkTelnet rest (history ++ ["LIST RW " +:+ ups +:+ nl])).
Proof.
  intros Hups Hnl. unfold GetRWVars.
  rewrite (encode_ascii_Ok _ Hups), bind_lift_Ok.
  rewrite (bind_Ok _ _ _ _ _ (write_bytes _ _)). unfold wrote. cbn [cookedq sent].
  rewrite <- (append_assoc "BEGIN LIST RW " ups nl).
  rewrite (append_assoc ("BEGIN LIST RW " +:+ ups) nl).
  assert (Hline : contains LF ("BEGIN LIST RW " +:+ ups) = false).
  { rewrite contains_app, Hnl. reflexivity. }
  rewrite (bind_Ok _ _ _ _ _ (read_until_line _ _ _ Hline)).
  rewrite decode_ascii_Ok by (rewrite !is_ascii_app, Hups; reflexivity).
  rewrite bind_lift_Ok, append_assoc, String.eqb_refl. cbn [negb].
  rewrite (bind_Ok _ _ _ _ _ (read_until_here _ _ _)).
  rewrite decode_ascii_Ok by (rewrite !is_ascii_app, Hups; reflexivity).
  rewrite bind_lift_Ok, slice_past_start. cbv zeta.
  rewrite try_pass_state. cbn [split for_each].
  unfold rw_body. rewrite slice_empty. reflexivity.
Qed.

Lemma GetRWVars_no_variables_empty_witness :
  GetRWVars "ups1"
    (mkTelnet (("BEGIN LIST RW " +:+ "ups1" +:+ nl)
               +:+ ("END LIST RW " +:+ "ups1" +:+ nl) +:+ "later") [])
  = (Ok ∅, mkTelnet "later" ([] ++ ["LIST RW " +:+ "ups1" +:+ nl])).
Proof.
  apply (GetRWVars_no_variables_empty "ups1" "later" []); reflexivity.
Defined.

(** ** Reading back what the server lists *)

Lemma unlines_app_cons l lines s :
  unlines (l :: lines) +:+ s = l +:+ String LF (unlines lines +:+ s).
Proof. cbn [unlines]. now rewrite !append_assoc. Qed.

(** Splitting a block of lines gives the lines back, then what follows. *)
Lemma split_unlines lines s :
  Forall (fun l => contains LF l = false) lines ->
  split LF (unlines lines +:+ s) = lines ++ split LF s.
Proof.
  induction 1 as [|l lines Hl _ IH]; [reflexivity|].
  rewrite unlines_app_cons, (split_app_sep _ _ _ Hl), IH. reflexivity.
Qed.

(** A block of at least one line is its lines joined by newlines, and a
    final newline. *)
Lemma unlines_joined lines :
  lines <> [] ->
  Forall (fun l => contains LF l = false) lines ->
  exists a, unlines lines = a +:+ nl /\ split LF a = lines.
Proof.
  intros Hne Hall. induction Hall as [|l lines Hl Hall IH]; [contradiction|].
  destruct lines as [|l' lines].
  - exists l. split; [reflexivity | now apply split_absent].
  - destruct IH as [a [Ha Hs]]; [discriminate|].
    exists (l +:+ nl +:+ a). split.
    + cbn [unlines] in *. rewrite Ha, !append_assoc. reflexivity.
    + change (l +:+ nl +:+ a) with (l +:+ String LF a).
      rewrite (split_app_sep _ _ _ Hl), Hs. reflexivity.
Qed.

(** The loops that cut the END line off iterate over the lines of the
    block, when there is at least one. *)
Lemma body_lines_unlines kind ups lines :
  lines <> [] ->
  Forall (fun l => contains LF l = false) lines ->
  body_lines kind ups
    (unlines lines +:+ "END LIST " +:+ kind +:+ " " +:+ ups +:+ nl)
  = lines.
Proof.
  intros Hne Hall. destruct (unlines_joined lines Hne Hall) as [a [-> Hs]].
  unfold body_lines. rewrite append_assoc, slice_cut_end. exact Hs.
Qed.

(** The text before the first quote, the text between the first two
    quotes, and the rest. *)
Lemma quoted_fields pre value trailer :
  contains DQ pre = false -> contains DQ value = false ->
  split DQ (pre +:+ dq +:+ value +:+ dq +:+ trailer)
  = pre :: value :: split DQ trailer.
Proof.
  intros Hp Hv.
  change (pre +:+ dq +:+ value +:+ dq +:+ trailer)
    with (pre +:+ String DQ (value +:+ String DQ trailer)).
  now rewrite (split_app_sep _ _ _ Hp), (split_app_sep _ _ _ Hv).
Qed.

Lemma contains_token_sp c name :
  contains c name = false -> c <> SP -> contains c (name +:+ " ") = false.
Proof.
  intros H Hc. rewrite contains_app, H.
  change (contains c " ") with (Ascii.eqb SP c || false).
  destruct (Ascii.eqb_spec SP c); [congruence | reflexivity].
Qed.

Lemma token_key name : token name = true ->
  replace SP EmptyString (name +:+ " ") = name.
Proof.
  intros H. rewrite replace_app, (replace_absent _ _ _ (token_SP _ H)).
  cbn. apply append_empty_r.
Qed.

Lemma token_key_spaced name : token name = true ->
  replace SP EmptyString (" " +:+ name +:+ " ") = name.
Proof. intros H. cbn. apply (token_key _ H). Qed.

Lemma var_line_LF ups name value :
  contains LF ups = false -> token name = true -> plain value = true ->
  contains LF (var_line ups (name, value)) = false.
Proof.
  intros Hu Hn Hv. unfold var_line. cbn [fst snd].
  rewrite !contains_app, Hu, (plain_LF _ (token_plain _ Hn)), (plain_LF _ Hv).
  reflexivity.
Qed.

Lemma var_line_ascii ups name value :
  is_ascii ups = true -> token name = true -> plain value = true ->
  is_ascii (var_line ups (name, value)) = true.
Proof.
  intros Hu Hn Hv. unfold var_line. cbn [fst snd].
  rewrite !is_ascii_app, Hu, (plain_ascii _ (token_plain _ Hn)), (plain_ascii _ Hv).
  reflexivity.
Qed.

Lemma is_ascii_unlines lines :
  Forall (fun l => is_ascii l = true) lines -> is_ascii (unlines lines) = true.
Proof.
  induction 1 as [|l lines Hl _ IH]; [reflexivity|].
  cbn [unlines]. rewrite !is_ascii_app, Hl, IH. reflexivity.
Qed.

(** What lines 143-144 find in a variable line. *)
Lemma var_line_fields ups name value :
  token name = true -> plain value = true ->
  split DQ (slice (Some (len ("VAR " +:+ ups +:+ " "))) None
                  (var_line ups (name, value)))
  = [name +:+ " "; value; EmptyString].
Proof.
  intros Hn Hv. unfold var_line. cbn [fst snd].
  replace ("VAR " +:+ ups +:+ " " +:+ name +:+ " " +:+ dq +:+ value +:+ dq)
    with (("VAR " +:+ ups +:+ " ")
          +:+ ((name +:+ " ") +:+ dq +:+ value +:+ dq +:+ EmptyString))
    by (now rewrite !append_assoc).
  rewrite slice_suffix.
  rewrite quoted_fields; [reflexivity| |exact (plain_DQ _ Hv)].
  apply contains_token_sp; [exact (plain_DQ _ (token_plain _ Hn)) | discriminate].
Qed.

(** What lines 207-208 find in the same line: the offset there leaves the
    space before the name in. *)
Lemma var_line_fields_rw ups name value :
  token name = true -> plain value = true ->
  split DQ (slice (Some (len ("VAR " +:+ ups))) None (var_line ups (name, value)))
  = [" " +:+ name +:+ " "; value; EmptyString].
Proof.
  intros Hn Hv. unfold var_line. cbn [fst snd].
  replace ("VAR " +:+ ups +:+ " " +:+ name +:+ " " +:+ dq +:+ value +:+ dq)
    with (("VAR " +:+ ups)
          +:+ ((" " +:+ name +:+ " ") +:+ dq +:+ value +:+ dq +:+ EmptyString))
    by (now rewrite !append_assoc).
  rewrite slice_suffix.
  rewrite quoted_fields; [reflexivity| |exact (plain_DQ _ Hv)].
  change (contains DQ (" " +:+ name +:+ " "))
    with (Ascii.eqb SP DQ || contains DQ (name +:+ " ")).
  apply contains_token_sp; [exact (plain_DQ _ (token_plain _ Hn)) | discriminate].
Qed.

Lemma index_first {A} (x : A) xs : index (x :: xs) 0 = Ok x.
Proof. reflexivity. Qed.

Lemma index_second {A} (x y : A) xs : index (x :: y :: xs) 1 = Ok y.
Proof. reflexivity. Qed.

Lemma entries_lines_LF ups (entries : list (string * string)) :
  contains LF ups = false ->
  Forall (fun e => token e.1 = true /\ plain e.2 = true) entries ->
  Forall (fun l => contains LF l = false) (map (var_line ups) entries).
Proof.
  intros Hu Hall. apply Forall_map. eapply Forall_impl; [exact Hall|].
  intros [name value] [Hn Hv]. now apply var_line_LF.
Qed.

Lemma entries_lines_ascii ups (entries : list (string * string)) :
  is_ascii ups = true ->
  Forall (fun e => token e.1 = true /\ plain e.2 = true) entries ->
  Forall (fun l => is_ascii l = true) (map (var_line ups) entries).
Proof.
  intros Hu Hall. apply Forall_map. eapply Forall_impl; [exact Hall|].
  intros [name value] [Hn Hv]. now apply var_line_ascii.
Qed.

(** The loop of [GetUPSVars] over well-formed variable lines assigns each
    variable its value, in order, and leaves the connection alone. *)
Lemma GetUPSVars_loop ups (entries : list (string * string)) :
  Forall (fun e => token e.1 = true /\ plain e.2 = true) entries ->
  forall (acc : gmap string string) (s : Telnet),
    foldM (fun (ups_vars : gmap string string) current =>
             let! f0 := lift (index (split DQ (slice (Some (len ("VAR " +:+ ups +:+ " "))) None current)) 0) in
             let var := replace SP EmptyString f0 in
             let! data := lift (index (split DQ (slice (Some (len ("VAR " +:+ ups +:+ " "))) None current)) 1) in
             ret (<[var := data]> ups_vars))
          (map (var_line ups) entries) acc s
    = (Ok (assign_all entries acc), s).
Proof.
  induction 1 as [|[name value] entries [Hn Hv] _ IH]; intros acc s.
  - reflexivity.
  - cbn [map foldM]. cbn [fst snd] in Hn, Hv.
    rewrite (var_line_fields ups name value Hn Hv).
    erewrite bind_Ok; [apply IH|].
    rewrite index_first, bind_lift_Ok, index_second, bind_lift_Ok.
    cbv zeta. rewrite (token_key _ Hn). reflexivity.
Qed.

(** Round trip of a variable list: for an ASCII device without newline and
    a list of at least one variable, each name being an ASCII token and
    each value ASCII text without quote or newline, when the server frames
    the lines VAR device name and quoted value between BEGIN and END,
    [GetUPSVars] returns the dictionary that maps each name to its value,
    unchanged (a name listed twice keeps its last value). *)
Theorem GetUPSVars_round_trip ups entries t t1 t2 :
  is_ascii ups = true -> contains LF ups = false ->
  entries <> [] ->
  Forall (fun e => token e.1 = true /\ plain e.2 = true) entries ->
  read_until (PyBytes nl) (wrote ("LIST VAR " +:+ ups +:+ nl) t)
  = (Ok ("BEGIN LIST VAR " +:+ ups +:+ nl), t1) ->
  read_until (PyBytes ("END LIST VAR " +:+ ups +:+ nl)) t1
  = (Ok (unlines (map (var_line ups) entries)
         +:+ "END LIST VAR " +:+ ups +:+ nl), t2) ->
  GetUPSVars ups t = (Ok (VarsDict (assign_all entries ∅)), t2).
Proof.
  intros Hups Hnl Hne Hall Hbegin Hend. unfold GetUPSVars.
  rewrite (encode_ascii_Ok _ Hups), bind_lift_Ok.
  rewrite (bind_Ok _ _ _ _ _ (write_bytes _ t)).
  rewrite (bind_Ok _ _ _ _ _ Hbegin).
  rewrite decode_ascii_Ok by (rewrite !is_ascii_app, Hups; reflexivity).
  rewrite bind_lift_Ok, String.eqb_refl. cbn [negb].
  rewrite (bind_Ok _ _ _ _ _ Hend).
  rewrite decode_ascii_Ok.
  2:{ rewrite !is_ascii_app, Hups, is_ascii_unlines; [reflexivity|].
      now apply entries_lines_ascii. }
  rewrite bind_lift_Ok. cbv zeta.
  pose proof (body_lines_unlines "VAR" ups (map (var_line ups) entries)) as Hb.
  unfold body_lines in Hb.
  change ("END LIST " +:+ "VAR" +:+ " " +:+ ups +:+ nl)
    with ("END LIST VAR " +:+ ups +:+ nl) in Hb.
  rewrite Hb; [| now destruct entries | now apply entries_lines_LF].
  erewrite bind_Ok; [reflexivity|].
  now apply GetUPSVars_loop.
Qed.

Lemma GetUPSVars_round_trip_witness :
  GetUPSVars "ups1"
    (mkTelnet ("BEGIN LIST VAR ups1" +:+ nl +:+
               "VAR ups1 battery.charge " +:+ dq +:+ "100" +:+ dq +:+ nl +:+
               "VAR ups1 ups.status " +:+ dq +:+ "OL CHRG" +:+ dq +:+ nl +:+
               "END LIST VAR ups1" +:+ nl +:+ "later") [])
  = (Ok (VarsDict
           (assign_all [("battery.charge", "100"); ("ups.status", "OL CHRG")] ∅)),
     mkTelnet "later" ["LIST VAR ups1" +:+ nl]).
Proof.
  eapply (GetUPSVars_round_trip "ups1"
            [("battery.charge", "100"); ("ups.status", "OL CHRG")]).
  - reflexivity.
  - reflexivity.
  - discriminate.
  - repeat constructor.
  - vm_compute. reflexivity.
  - vm_compute. reflexivity.
Defined.

(** A value is cut at a quote inside it: for a one-line variable list whose
    value holds a quote, [GetUPSVars] stores the part of the value before
    that quote; nothing is raised and the rest of the value is lost. *)
Theorem GetUPSVars_value_cut_at_quote ups name v1 v2 t t1 t2 :
  is_ascii ups = true -> contains LF ups = false ->
  token name = true -> plain v1 = true ->
  is_ascii v2 = true -> contains LF v2 = false ->
  read_until (PyBytes nl) (wrote ("LIST VAR " +:+ ups +:+ nl) t)
  = (Ok ("BEGIN LIST VAR " +:+ ups +:+ nl), t1) ->
  read_until (PyBytes ("END LIST VAR " +:+ ups +:+ nl)) t1
  = (Ok (unlines [var_line ups (name, v1 +:+ dq +:+ v2)]
         +:+ "END LIST VAR " +:+ ups +:+ nl), t2) ->
  GetUPSVars ups t = (Ok (VarsDict {[ name := v1 ]}), t2).
Proof.
  intros Hups Hnl Hn Hv1 Ha2 Hl2 Hbegin Hend. unfold GetUPSVars.
  assert (HLF : contains LF (var_line ups (name, v1 +:+ dq +:+ v2)) = false).
  { unfold var_line. cbn [fst snd].
    rewrite !contains_app, Hnl, (plain_LF _ (token_plain _ Hn)),
      (plain_LF _ Hv1), Hl2. reflexivity. }
  rewrite (encode_ascii_Ok _ Hups), bind_lift_Ok.
  rewrite (bind_Ok _ _ _ _ _ (write_bytes _ t)).
  rewrite (bind_Ok _ _ _ _ _ Hbegin).
  rewrite decode_ascii_Ok by (rewrite !is_ascii_app, Hups; reflexivity).
  rewrite bind_lift_Ok, String.eqb_refl. cbn [negb].
  rewrite (bind_Ok _ _ _ _ _ Hend).
  rewrite decode_ascii_Ok.
  2:{ unfold var_line. cbn [unlines fst snd].
      rewrite !is_ascii_app, Hups, (plain_ascii _ (token_plain _ Hn)),
        (plain_ascii _ Hv1), Ha2. reflexivity. }
  rewrite bind_lift_Ok. cbv zeta.
  pose proof (body_lines_unlines "VAR" ups
                [var_line ups (name, v1 +:+ dq +:+ v2)]) as Hb.
  unfold body_lines in Hb.
  change ("END LIST " +:+ "VAR" +:+ " " +:+ ups +:+ nl)
    with ("END LIST VAR " +:+ ups +:+ nl) in Hb.
  rewrite Hb; [| discriminate | repeat constructor; exact HLF].
  cbn [foldM].
  replace (var_line ups (name, v1 +:+ dq +:+ v2))
    with (("VAR " +:+ ups +:+ " ")
          +:+ ((name +:+ " ") +:+ dq +:+ v1 +:+ dq +:+ (v2 +:+ dq)))
    by (unfold var_line; cbn [fst snd]; now rewrite !append_assoc).
  rewrite slice_suffix, quoted_fields;
    [| apply contains_token_sp;
       [exact (plain_DQ _ (token_plain _ Hn)) | discriminate]
     | exact (plain_DQ _ Hv1)].
  rewrite index_first, index_second.
  erewrite bind_Ok; [reflexivity|].
  erewrite bind_Ok; [reflexivity|].
  rewrite !bind_lift_Ok, (token_key _ Hn). reflexivity.
Qed.

Lemma GetUPSVars_value_cut_at_quote_witness :
  GetUPSVars "ups1"
    (mkTelnet ("BEGIN LIST VAR ups1" +:+ nl +:+
               "VAR ups1 ups.model " +:+ dq +:+ "Smart" +:+ dq +:+ "UPS"
               +:+ dq +:+ nl +:+
               "END LIST VAR ups1" +:+ nl) [])
  = (Ok (VarsDict {[ "ups.model" := "Smart" ]}),
     mkTelnet EmptyString ["LIST VAR ups1" +:+ nl]).
Proof.
  eapply (GetUPSVars_value_cut_at_quote "ups1" "ups.model" "Smart" "UPS").
  - reflexivity.
  - reflexivity.
  - reflexivity.
  - reflexivity.
  - reflexivity.
  - reflexivity.
  - vm_compute. reflexivity.
  - vm_compute. reflexivity.
Defined.

(** The loop of [GetRWVars] over well-formed variable lines runs to its end
    and assigns each variable its value. *)
Lemma GetRWVars_loop ups (entries : list (string * string)) :
  Forall (fun e => token e.1 = true /\ plain e.2 = true) entries ->
  forall rw_vars : gmap string string,
    for_each (map (var_line ups) entries) (rw_body (len ("VAR " +:+ ups))) rw_vars
    = (Ok tt, assign_all entries rw_vars).
Proof.
  induction 1 as [|[name value] entries [Hn Hv] _ IH]; intros rw_vars.
  - reflexivity.
  - cbn [map for_each]. cbn [fst snd] in Hn, Hv.
    erewrite bind_Ok; [apply IH|].
    unfold rw_body. rewrite (var_line_fields_rw ups name value Hn Hv).
    rewrite index_first, bind_lift_Ok, index_second, bind_lift_Ok.
    cbv zeta. rewrite (token_key_spaced _ Hn). reflexivity.
Qed.

(** Round trip of a writable-variable list, under the conditions of the
    variable list: every line being well formed, [GetRWVars] returns the
    dictionary that maps each name to its value. *)
Theorem GetRWVars_round_trip ups entries t t1 t2 :
  is_ascii ups = true -> contains LF ups = false ->
  entries <> [] ->
  Forall (fun e => token e.1 = true /\ plain e.2 = true) entries ->
  read_until (PyBytes nl) (wrote ("LIST RW " +:+ ups +:+ nl) t)
  = (Ok ("BEGIN LIST RW " +:+ ups +:+ nl), t1) ->
  read_until (PyBytes ("END LIST RW " +:+ ups +:+ nl)) t1
  = (Ok (unlines (map (var_line ups) entries)
         +:+ "END LIST RW " +:+ ups +:+ nl), t2) ->
  GetRWVars ups t = (Ok (assign_all entries ∅), t2).
Proof.
  intros Hups Hnl Hne Hall Hbegin Hend. unfold GetRWVars.
  rewrite (encode_ascii_Ok _ Hups), bind_lift_Ok.
  rewrite (bind_Ok _ _ _ _ _ (write_bytes _ t)).
  rewrite (bind_Ok _ _ _ _ _ Hbegin).
  rewrite decode_ascii_Ok by (rewrite !is_ascii_app, Hups; reflexivity).
  rewrite bind_lift_Ok, String.eqb_refl. cbn [negb].
  rewrite (bind_Ok _ _ _ _ _ Hend).
  rewrite decode_ascii_Ok.
  2:{ rewrite !is_ascii_app, Hups, is_ascii_unlines; [reflexivity|].
      now apply entries_lines_ascii. }
  rewrite bind_lift_Ok. cbv zeta.
  pose proof (body_lines_unlines "RW" ups (map (var_line ups) entries)) as Hb.
  unfold body_lines in Hb.
  change ("END LIST " +:+ "RW" +:+ " " +:+ ups +:+ nl)
    with ("END LIST RW " +:+ ups +:+ nl) in Hb.
  rewrite Hb; [| now destruct entries | now apply entries_lines_LF].
  rewrite try_pass_state, (GetRWVars_loop ups entries Hall). reflexivity.
Qed.

Lemma GetRWVars_round_trip_witness :
  GetRWVars "ups1"
    (mkTelnet ("BEGIN LIST RW ups1" +:+ nl +:+
               "VAR ups1 battery.charge.low " +:+ dq +:+ "20" +:+ dq +:+ nl +:+
               "VAR ups1 ups.delay.shutdown " +:+ dq +:+ "30" +:+ dq +:+ nl +:+
               "END LIST RW ups1" +:+ nl) [])
  = (Ok (assign_all [("battery.charge.low", "20");
                     ("ups.delay.shutdown", "30")] ∅),
     mkTelnet EmptyString ["LIST RW ups1" +:+ nl]).
Proof.
  eapply (GetRWVars_round_trip "ups1"
            [("battery.charge.low", "20"); ("ups.delay.shutdown", "30")]).
  - reflexivity.
  - reflexivity.
  - discriminate.
  - repeat constructor.
  - vm_compute. reflexivity.
  - vm_compute. reflexivity.
Defined.

(** [(p + m + c)[len(p):-1]] is [m]. *)
Lemma slice_strip p m c :
  slice (Some (len p)) (Some (-1)%Z) (p +:+ m +:+ String c EmptyString) = m.
Proof.
  unfold slice, clamp, len. rewrite !length_app. cbn [String.length].
  destruct (Z.ltb_spec (Z.of_nat (String.length p)) 0); [lia|].
  destruct (Z.ltb_spec (-1) 0); [|lia].
  replace (Z.to_nat (Z.max 0 _)) with (String.length (p +:+ m))
    by (rewrite length_app; lia).
  replace (Z.to_nat (Z.min _ _)) with (String.length p) by lia.
  rewrite <- append_assoc, take_app_exact. apply drop_app_exact.
Qed.

(** What lines 115-117 find in a device line. *)
Lemma ups_line_fields name desc :
  token name = true -> plain desc = true ->
  slice None (Some 3%Z) (ups_line (name, desc)) = "UPS"
  /\ split DQ (slice (Some 4%Z) (Some (-1)%Z) (ups_line (name, desc)))
     = [name +:+ " "; desc].
Proof.
  intros Hn Hd. unfold ups_line. cbn [fst snd]. split.
  - apply (slice_prefix "UPS" (" " +:+ name +:+ " " +:+ dq +:+ desc +:+ dq)).
  - replace ("UPS " +:+ name +:+ " " +:+ dq +:+ desc +:+ dq)
      with ("UPS " +:+ ((name +:+ " ") +:+ String DQ desc) +:+ String DQ EmptyString)
      by (now rewrite !append_assoc).
    rewrite (slice_strip "UPS "), split_app_sep, (split_absent _ _ (plain_DQ _ Hd));
      [reflexivity|].
    apply contains_token_sp; [exact (plain_DQ _ (token_plain _ Hn)) | discriminate].
Qed.

(** The loop of [GetUPSList] over well-formed device lines, then over what
    follows them. *)
Lemma GetUPSList_loop (entries : list (string * string)) (tl : list string) :
  Forall (fun e => token e.1 = true /\ plain e.2 = true) entries ->
  forall (acc : gmap string string) (s : Telnet),
    foldM (fun (ups_list : gmap string string) line =>
             if slice None (Some 3%Z) line =? "UPS" then
               match split DQ (slice (Some 4%Z) (Some (-1)%Z) line) with
               | [ups; desc] =>
                   ret (<[replace SP EmptyString ups := desc]> ups_list)
               | _ => raise ValueError
               end
             else ret ups_list)
          (map ups_line entries ++ tl) acc s
    = foldM (fun (ups_list : gmap string string) line =>
               if slice None (Some 3%Z) line =? "UPS" then
                 match split DQ (slice (Some 4%Z) (Some (-1)%Z) line) with
                 | [ups; desc] =>
                     ret (<[replace SP EmptyString ups := desc]> ups_list)
                 | _ => raise ValueError
                 end
               else ret ups_list)
            tl (assign_all entries acc) s.
Proof.
  induction 1 as [|[name desc] entries [Hn Hd] _ IH]; intros acc s.
  - reflexivity.
  - cbn [map app foldM]. cbn [fst snd] in Hn, Hd.
    destruct (ups_line_fields name desc Hn Hd) as [-> ->].
    erewrite bind_Ok; [apply IH|].
    cbn [String.eqb]. rewrite (token_key _ Hn). reflexivity.
Qed.

Lemma ups_line_LF name desc :
  token name = true -> plain desc = true ->
  contains LF (ups_line (name, desc)) = false.
Proof.
  intros Hn Hd. unfold ups_line. cbn [fst snd].
  rewrite !contains_app, (plain_LF _ (token_plain _ Hn)), (plain_LF _ Hd).
  reflexivity.
Qed.

Lemma ups_line_ascii name desc :
  token name = true -> plain desc = true ->
  is_ascii (ups_line (name, desc)) = true.
Proof.
  intros Hn Hd. unfold ups_line. cbn [fst snd].
  rewrite !is_ascii_app, (plain_ascii _ (token_plain _ Hn)), (plain_ascii _ Hd).
  reflexivity.
Qed.

(** Round trip of a device list: for every list of devices, each name an
    ASCII token and each description ASCII text without quote or newline,
    framed by the server as lines UPS name and quoted description
    between BEGIN and END, [GetUPSList] returns the dictionary that maps
    each name to its description; an empty list gives the empty
    dictionary. *)
Theorem GetUPSList_round_trip entries t t1 t2 :
  Forall (fun e => token e.1 = true /\ plain e.2 = true) entries ->
  read_until (PyBytes nl) (wrote ("LIST UPS" +:+ nl) t)
  = (Ok ("BEGIN LIST UPS" +:+ nl), t1) ->
  read_until (PyBytes ("END LIST UPS" +:+ nl)) t1
  = (Ok (unlines (map ups_line entries) +:+ "END LIST UPS" +:+ nl), t2) ->
  GetUPSList t = (Ok (assign_all entries ∅), t2).
Proof.
  intros Hall Hbegin Hend. unfold GetUPSList.
  rewrite (bind_Ok _ _ _ _ _ (write_bytes _ t)).
  rewrite (bind_Ok _ _ _ _ _ Hbegin).
  rewrite decode_ascii_Ok by reflexivity.
  rewrite bind_lift_Ok, String.eqb_refl. cbn [negb].
  rewrite (bind_Ok _ _ _ _ _ Hend).
  rewrite decode_ascii_Ok.
  2:{ rewrite is_ascii_app, is_ascii_unlines; [reflexivity|].
      apply Forall_map. eapply Forall_impl; [exact Hall|].
      intros [name desc] [Hn Hd]. now apply ups_line_ascii. }
  rewrite bind_lift_Ok, split_unlines.
  2:{ apply Forall_map. eapply Forall_impl; [exact Hall|].
      intros [name desc] [Hn Hd]. now apply ups_line_LF. }
  rewrite (GetUPSList_loop entries _ Hall). reflexivity.
Qed.

Lemma GetUPSList_round_trip_witness :
  GetUPSList (mkTelnet scenarioA [])
  = (Ok (assign_all [("ups1", "Desc one"); ("ups2", "Desc two")] ∅),
     mkTelnet EmptyString ["LIST UPS" +:+ nl]).
Proof.
  eapply (GetUPSList_round_trip [("ups1", "Desc one"); ("ups2", "Desc two")]).
  - repeat constructor.
  - vm_compute. reflexivity.
  - vm_compute. reflexivity.
Defined.

(** ** Client lists *)

(** Lines 316-318 amount to appending the host to the hosts of the device. *)
Lemma client_step (d : gmap string (list string)) host dev :
  alter (fun clients => clients ++ [host]) dev
        (if bool_decide (dev ∈ dom d) then d else <[dev := []]> d)
  = add_client d (host, dev).
Proof.
  unfold add_client. cbn [fst snd]. apply map_eq. intros k.
  destruct (decide (dev = k)) as [<-|Hne].
  - rewrite lookup_insert_eq. case_bool_decide as Hin.
    + apply elem_of_dom in Hin as [l Hl].
      rewrite lookup_alter_eq, Hl. reflexivity.
    + apply not_elem_of_dom in Hin.
      rewrite lookup_alter_eq, lookup_insert_eq, Hin. reflexivity.
  - rewrite lookup_insert_ne by exact Hne.
    rewrite lookup_alter_ne by exact Hne.
    case_bool_decide; [reflexivity|]. now rewrite lookup_insert_ne.
Qed.

(** What lines 313-314 find in a client line. *)
Lemma client_line_fields host dev :
  token host = true -> token dev = true ->
  slice None (Some 6%Z) (client_line (host, dev)) = "CLIENT"
  /\ split SP (slice (Some 7%Z) None (client_line (host, dev))) = [host; dev].
Proof.
  intros Hh Hd. unfold client_line. cbn [fst snd]. split.
  - apply (slice_prefix "CLIENT" (" " +:+ host +:+ " " +:+ dev)).
  - change (Some 7%Z) with (Some (len "CLIENT ")).
    rewrite (slice_suffix "CLIENT " (host +:+ " " +:+ dev)).
    change (host +:+ " " +:+ dev) with (host +:+ String SP dev).
    rewrite (split_app_sep _ _ _ (token_SP _ Hh)), (split_absent _ _ (token_SP _ Hd)).
    reflexivity.
Qed.

(** The loop of [ListClients] over well-formed client lines, then over what
    follows them. *)
Lemma ListClients_loop (entries : list (string * string)) (tl : list string) :
  Forall (fun e => token e.1 = true /\ token e.2 = true) entries ->
  forall (acc : gmap string (list string)) (s : Telnet),
    foldM (fun (ups_list : gmap string (list string)) line =>
             if slice None (Some 6%Z) line =? "CLIENT" then
               match split SP (slice (Some 7%Z) None line) with
               | [host; ups] =>
                   let ups_list :=
                     if bool_decide (ups ∈ dom ups_list) then ups_list
                     else <[ups := []]> ups_list in
                   ret (alter (fun clients => clients ++ [host]) ups ups_list)
               | _ => raise ValueError
               end
             else ret ups_list)
          (map client_line entries ++ tl) acc s
    = foldM (fun (ups_list : gmap string (list string)) line =>
               if slice None (Some 6%Z) line =? "CLIENT" then
                 match split SP (slice (Some 7%Z) None line) with
                 | [host; ups] =>
                     let ups_list :=
                       if bool_decide (ups ∈ dom ups_list) then ups_list
                       else <[ups := []]> ups_list in
                     ret (alter (fun clients => clients ++ [host]) ups ups_list)
                 | _ => raise ValueError
                 end
               else ret ups_list)
            tl (foldl add_client acc entries) s.
Proof.
  induction 1 as [|[host dev] entries [Hh Hd] _ IH]; intros acc s.
  - reflexivity.
  - cbn [map app foldM foldl]. cbn [fst snd] in Hh, Hd.
    destruct (client_line_fields host dev Hh Hd) as [-> ->].
    erewrite bind_Ok; [apply IH|].
    cbn [String.eqb]. cbv zeta. rewrite client_step. reflexivity.
Qed.

(** After the loop, a device maps to the hosts listed for it, in order,
    behind those it had before. *)
Lemma add_clients_lookup (entries : list (string * string)) dev :
  forall acc : gmap string (list string),
    foldl add_client acc entries !! dev
    = match clients_of dev entries with
      | [] => acc !! dev
      | hosts => Some (default [] (acc !! dev) ++ hosts)
      end.
Proof.
  induction entries as [|[host dev'] entries IH]; intros acc.
  - reflexivity.
  - cbn [foldl]. rewrite IH. unfold clients_of, add_client. cbn [fst snd].
    destruct (decide (dev' = dev)) as [->|Hne].
    + rewrite filter_cons_True by reflexivity.
      rewrite lookup_insert_eq. cbn [map fst default].
      destruct (map fst (filter _ entries)) as [|h hs].
      * reflexivity.
      * unfold id. now rewrite <- app_assoc.
    + rewrite filter_cons_False by exact Hne.
      now rewrite lookup_insert_ne.
Qed.

(** Grouping of a client list: called with the empty filter on a list of
    clients (hosts and devices being ASCII tokens) framed between BEGIN and
    END, [ListClients] returns a dictionary in which each device maps to
    the hosts listed for it, in the order of the list and with repetitions
    kept; a device without client is not a key. *)
Theorem ListClients_groups_hosts entries t t1 t2 :
  Forall (fun e => token e.1 = true /\ token e.2 = true) entries ->
  read_until (PyBytes nl) (wrote ("LIST CLIENTS" +:+ nl) t)
  = (Ok ("BEGIN LIST CLIENTS" +:+ nl), t1) ->
  read_until (PyBytes ("END LIST CLIENTS" +:+ nl)) t1
  = (Ok (unlines (map client_line entries) +:+ "END LIST CLIENTS" +:+ nl), t2) ->
  exists ups_list,
    ListClients (Some EmptyString) t = (Ok ups_list, t2)
    /\ forall dev,
        ups_list !! dev = match clients_of dev entries with
                          | [] => None
                          | hosts => Some hosts
                          end.
Proof.
  intros Hall Hbegin Hend. exists (foldl add_client ∅ entries). split.
  - unfold ListClients.
    change (encode_ascii EmptyString) with (@Ok string EmptyString).
    rewrite bind_lift_Ok. cbn [truthy String.eqb negb].
    rewrite (bind_Ok _ _ t tt t) by reflexivity.
    rewrite (bind_Ok _ _ _ _ _ (write_bytes _ t)).
    rewrite (bind_Ok _ _ _ _ _ Hbegin).
    rewrite decode_ascii_Ok by reflexivity.
    rewrite bind_lift_Ok, String.eqb_refl. cbn [negb].
    rewrite (bind_Ok _ _ _ _ _ Hend).
    rewrite decode_ascii_Ok.
    2:{ rewrite is_ascii_app, is_ascii_unlines; [reflexivity|].
        apply Forall_map. eapply Forall_impl; [exact Hall|].
        intros [host dev] [Hh Hd]. unfold client_line. cbn [fst snd] in *.
        rewrite !is_ascii_app, (plain_ascii _ (token_plain _ Hh)),
          (plain_ascii _ (token_plain _ Hd)). reflexivity. }
    rewrite bind_lift_Ok, split_unlines.
    2:{ apply Forall_map. eapply Forall_impl; [exact Hall|].
        intros [host dev] [Hh Hd]. unfold client_line. cbn [fst snd] in *.
        rewrite !contains_app, (plain_LF _ (token_plain _ Hh)),
          (plain_LF _ (token_plain _ Hd)). reflexivity. }
    rewrite (ListClients_loop entries _ Hall). reflexivity.
  - intros dev. rewrite add_clients_lookup, lookup_empty.
    destruct (clients_of dev entries); reflexivity.
Qed.

Lemma ListClients_groups_hosts_witness :
  exists ups_list,
    ListClients (Some EmptyString)
      (mkTelnet ("BEGIN LIST CLIENTS" +:+ nl +:+
                 "CLIENT 10.0.0.1 dev1" +:+ nl +:+
                 "CLIENT 10.0.0.9 dev2" +:+ nl +:+
                 "CLIENT 10.0.0.2 dev1" +:+ nl +:+
                 "END LIST CLIENTS" +:+ nl) [])
    = (Ok ups_list, mkTelnet EmptyString ["LIST CLIENTS" +:+ nl])
    /\ forall dev,
        ups_list !! dev
        = match clients_of dev [("10.0.0.1", "dev1"); ("10.0.0.9", "dev2");
                                ("10.0.0.2", "dev1")] with
          | [] => None
          | hosts => Some hosts
          end.
Proof.
  eapply (ListClients_groups_hosts
            [("10.0.0.1", "dev1"); ("10.0.0.9", "dev2"); ("10.0.0.2", "dev1")]).
  - repeat constructor.
  - vm_compute. reflexivity.
  - vm_compute. reflexivity.
Defined.

(** A filter the server knows still fails when the server echoes it: for a
    non-empty ASCII filter without newline that is a key of the device
    enumeration, when the answer to LIST CLIENTS with that filter begins
    with BEGIN LIST CLIENTS followed by the filter, [ListClients] raises
    [PyNUTError] carrying that line: line 306 compares with the BEGIN line
    of the unfiltered list. *)
Theorem ListClients_filter_echo_refused ups t known t1 rest :
  ups <> EmptyString ->
  is_ascii ups = true -> contains LF ups = false ->
  GetUPSList t = (Ok known, t1) ->
  is_Some (known !! ups) ->
  cookedq t1 = ("BEGIN LIST CLIENTS " +:+ ups) +:+ nl +:+ rest ->
  ListClients (Some ups) t
  = (Raise (PyNUTError (ArgStr ("BEGIN LIST CLIENTS " +:+ ups))),
     mkTelnet rest (sent t1 ++ ["LIST CLIENTS " +:+ ups +:+ nl])).
Proof.
  intros Hne Hups Hnl Hlist Hkey Hq. unfold ListClients.
  rewrite (encode_ascii_Ok _ Hups), bind_lift_Ok.
  assert (Htruthy : truthy (Some ups) = true).
  { simpl. destruct (String.eqb_spec ups EmptyString); [contradiction|reflexivity]. }
  rewrite Htruthy.
  erewrite bind_Ok.
  2:{ rewrite (bind_Ok _ _ _ _ _ Hlist). cbn [default].
      rewrite bool_decide_eq_true_2 by (now apply elem_of_dom). reflexivity. }
  rewrite (bind_Ok _ _ _ _ _ (write_bytes _ t1)). unfold wrote. rewrite Hq.
  assert (Hline : contains LF ("BEGIN LIST CLIENTS " +:+ ups) = false).
  { rewrite contains_app, Hnl. reflexivity. }
  rewrite (bind_Ok _ _ _ _ _ (read_until_line _ _ _ Hline)).
  rewrite decode_ascii_Ok by (rewrite !is_ascii_app, Hups; reflexivity).
  rewrite bind_lift_Ok, (replace_line _ Hline). reflexivity.
Qed.

Lemma ListClients_filter_echo_refused_witness :
  ListClients (Some "ups1")
    (mkTelnet (scenarioA +:+ "BEGIN LIST CLIENTS ups1" +:+ nl +:+
               "CLIENT 10.0.0.1 ups1" +:+ nl +:+
               "END LIST CLIENTS ups1" +:+ nl) [])
  = (Raise (PyNUTError (ArgStr ("BEGIN LIST CLIENTS " +:+ "ups1"))),
     mkTelnet ("CLIENT 10.0.0.1 ups1" +:+ nl +:+ "END LIST CLIENTS ups1" +:+ nl)
              (sent (mkTelnet ("BEGIN LIST CLIENTS ups1" +:+ nl +:+
                               "CLIENT 10.0.0.1 ups1" +:+ nl +:+
                               "END LIST CLIENTS ups1" +:+ nl)
                              ["LIST UPS" +:+ nl])
               ++ ["LIST CLIENTS " +:+ "ups1" +:+ nl])).
Proof.
  eapply (ListClients_filter_echo_refused "ups1" _
            {[ "ups1" := "Desc one"; "ups2" := "Desc two" ]}).
  - discriminate.
  - reflexivity.
  - reflexivity.
  - vm_compute. reflexivity.
  - vm_compute. eauto.
  - reflexivity.
Defined.

(** ** Command lists *)

(** What line 169 finds in a command line: the name. *)
Lemma cmd_line_name ups name :
  token name = true ->
  split DQ (slice (Some (len ("CMD " +:+ ups +:+ " "))) None (cmd_line ups name))
  = [name].
Proof.
  intros Hn. unfold cmd_line.
  replace ("CMD " +:+ ups +:+ " " +:+ name)
    with (("CMD " +:+ ups +:+ " ") +:+ name) by (now rewrite !append_assoc).
  rewrite slice_suffix. apply split_absent, plain_DQ, token_plain, Hn.
Qed.

(** The loop of [GetUPSCommands] over well-formed command lines: each name
    is described by itself, and one request per name is written, the
    device and the name not being separated. *)
Lemma GetUPSCommands_loop_requests ups ups_ascii (names : list string) :
  Forall (fun n => token n = true) names ->
  forall (acc : gmap string string) (s : Telnet),
    (foldM (fun (ups_cmds : gmap string string) current =>
              let! f0 := lift (index (split DQ (slice (Some (len ("CMD " +:+ ups +:+ " "))) None current)) 0) in
              let var := replace SP EmptyString f0 in
              let! desc := cmd_desc ups ups_ascii var in
              ret (<[var := desc]> ups_cmds))
           (map (cmd_line ups) names) acc s).1
    = Ok (assign_all (map (fun n => (n, n)) names) acc)
    /\ sent (foldM (fun (ups_cmds : gmap string string) current =>
                      let! f0 := lift (index (split DQ (slice (Some (len ("CMD " +:+ ups +:+ " "))) None current)) 0) in
                      let var := replace SP EmptyString f0 in
                      let! desc := cmd_desc ups ups_ascii var in
                      ret (<[var := desc]> ups_cmds))
                   (map (cmd_line ups) names) acc s).2
       = sent s ++ map (fun n => "GET CMDDESC " +:+ ups_ascii +:+ n +:+ nl) names.
Proof.
  induction 1 as [|name names Hn _ IH]; intros acc s.
  - split; [reflexivity | now rewrite app_nil_r].
  - pose proof (cmd_desc_falls_back ups ups_ascii name s) as Hd.
    pose proof (cmd_desc_sent ups ups_ascii name s
                  (plain_ascii _ (token_plain _ Hn))) as Hs.
    destruct (cmd_desc ups ups_ascii name s) as [r s1] eqn:Hc.
    cbn [fst snd] in Hd, Hs. subst r.
    cbn [map foldM].
    rewrite (bind_Ok _ _ s (<[name := name]> acc) s1).
    2:{ rewrite (cmd_line_name ups name Hn), index_first, bind_lift_Ok.
        cbv zeta. rewrite (replace_absent _ _ _ (token_SP _ Hn)).
        rewrite (bind_Ok _ _ _ _ _ Hc). reflexivity. }
    destruct (IH (<[name := name]> acc) s1) as [IH1 IH2].
    split; [exact IH1|]. etransitivity; [exact IH2|].
    rewrite Hs, <- app_assoc. reflexivity.
Qed.

(** Round trip of a command list, and what it costs: for an ASCII device
    without newline and a list of at least one command name, each an
    ASCII token, framed as lines CMD device name between BEGIN and END,
    [GetUPSCommands] returns the dictionary of these names, each described
    by itself, and has written after LIST CMD one GET CMDDESC request per
    name, in order, in which the name follows the device without a
    space. *)
Theorem GetUPSCommands_round_trip ups names t t1 t2 :
  is_ascii ups = true -> contains LF ups = false ->
  names <> [] ->
  Forall (fun n => token n = true) names ->
  read_until (PyBytes nl) (wrote ("LIST CMD " +:+ ups +:+ nl) t)
  = (Ok ("BEGIN LIST CMD " +:+ ups +:+ nl), t1) ->
  read_until (PyBytes ("END LIST CMD " +:+ ups +:+ nl)) t1
  = (Ok (unlines (map (cmd_line ups) names)
         +:+ "END LIST CMD " +:+ ups +:+ nl), t2) ->
  (GetUPSCommands ups t).1 = Ok (assign_all (map (fun n => (n, n)) names) ∅)
  /\ sent (GetUPSCommands ups t).2
     = sent t ++ ("LIST CMD " +:+ ups +:+ nl)
                 :: map (fun n => "GET CMDDESC " +:+ ups +:+ n +:+ nl) names.
Proof.
  intros Hups Hnl Hne Hall Hbegin Hend. unfold GetUPSCommands.
  rewrite (encode_ascii_Ok _ Hups), bind_lift_Ok.
  rewrite (bind_Ok _ _ _ _ _ (write_bytes _ t)).
  rewrite (bind_Ok _ _ _ _ _ Hbegin).
  rewrite decode_ascii_Ok by (rewrite !is_ascii_app, Hups; reflexivity).
  rewrite bind_lift_Ok, String.eqb_refl. cbn [negb].
  rewrite (bind_Ok _ _ _ _ _ Hend).
  assert (HLF : Forall (fun l => contains LF l = false) (map (cmd_line ups) names)).
  { apply Forall_map. eapply Forall_impl; [exact Hall|].
    intros n Hn. unfold cmd_line.
    rewrite !contains_app, Hnl, (plain_LF _ (token_plain _ Hn)). reflexivity. }
  rewrite decode_ascii_Ok.
  2:{ rewrite !is_ascii_app, Hups, is_ascii_unlines; [reflexivity|].
      apply Forall_map. eapply Forall_impl; [exact Hall|].
      intros n Hn. unfold cmd_line.
      rewrite !is_ascii_app, Hups, (plain_ascii _ (token_plain _ Hn)).
      reflexivity. }
  rewrite bind_lift_Ok. cbv zeta.
  pose proof (body_lines_unlines "CMD" ups (map (cmd_line ups) names)) as Hb.
  unfold body_lines in Hb.
  change ("END LIST " +:+ "CMD" +:+ " " +:+ ups +:+ nl)
    with ("END LIST CMD " +:+ ups +:+ nl) in Hb.
  rewrite Hb; [| now destruct names | exact HLF].
  destruct (GetUPSCommands_loop_requests ups ups names Hall ∅ t2) as [H1 H2].
  split; [exact H1|]. etransitivity; [exact H2|].
  apply read_until_sent in Hend, Hbegin. rewrite Hend, Hbegin.
  unfold wrote. cbn [sent]. now rewrite <- app_assoc.
Qed.

Lemma GetUPSCommands_round_trip_witness :
  (GetUPSCommands "u" (mkTelnet cmd_two_commands [])).1
  = Ok (assign_all (map (fun n => (n, n)) ["beeper.on"; "load.off"]) ∅)
  /\ sent (GetUPSCommands "u" (mkTelnet cmd_two_commands [])).2
     = sent (mkTelnet cmd_two_commands [])
       ++ ("LIST CMD " +:+ "u" +:+ nl)
          :: map (fun n => "GET CMDDESC " +:+ "u" +:+ n +:+ nl)
                 ["beeper.on"; "load.off"].
Proof.
  eapply (GetUPSCommands_round_trip "u" ["beeper.on"; "load.off"]).
  - reflexivity.
  - reflexivity.
  - discriminate.
  - repeat constructor.
  - vm_compute. reflexivity.
  - vm_compute. reflexivity.
Defined.

(** ** A quote inside a device description *)

(** Where [GetUPSVars] cuts a value at a quote inside it, [GetUPSList]
    fails: for a device list holding one line whose description has a
    quote in it, the unpacking at line 116 gets three fields or more and
    [GetUPSList] raises [ValueError]; no dictionary is returned. *)
Theorem GetUPSList_quote_in_description_raises name d1 d2 t t1 t2 :
  token name = true -> plain d1 = true ->
  is_ascii d2 = true -> contains LF d2 = false ->
  read_until (PyBytes nl) (wrote ("LIST UPS" +:+ nl) t)
  = (Ok ("BEGIN LIST UPS" +:+ nl), t1) ->
  read_until (PyBytes ("END LIST UPS" +:+ nl)) t1
  = (Ok (unlines [ups_line (name, d1 +:+ dq +:+ d2)]
         +:+ "END LIST UPS" +:+ nl), t2) ->
  GetUPSList t = (Raise ValueError, t2).
Proof.
  intros Hn Hd1 Ha2 Hl2 Hbegin Hend. unfold GetUPSList.
  assert (HLF : contains LF (ups_line (name, d1 +:+ dq +:+ d2)) = false).
  { unfold ups_line. cbn [fst snd].
    rewrite !contains_app, (plain_LF _ (token_plain _ Hn)), (plain_LF _ Hd1), Hl2.
    reflexivity. }
  rewrite (bind_Ok _ _ _ _ _ (write_bytes _ t)).
  rewrite (bind_Ok _ _ _ _ _ Hbegin).
  rewrite decode_ascii_Ok by reflexivity.
  rewrite bind_lift_Ok, String.eqb_refl. cbn [negb].
  rewrite (bind_Ok _ _ _ _ _ Hend).
  rewrite decode_ascii_Ok.
  2:{ unfold ups_line. cbn [unlines fst snd].
      rewrite !is_ascii_app, (plain_ascii _ (token_plain _ Hn)),
        (plain_ascii _ Hd1), Ha2. reflexivity. }
  rewrite bind_lift_Ok, split_unlines by (repeat constructor; exact HLF).
  cbn [app foldM].
  erewrite bind_Raise; [reflexivity|].
  replace (slice None (Some 3%Z) (ups_line (name, d1 +:+ dq +:+ d2)))
    with "UPS"
    by (symmetry; apply (slice_prefix "UPS"
          (" " +:+ name +:+ " " +:+ dq +:+ (d1 +:+ dq +:+ d2) +:+ dq))).
  replace (ups_line (name, d1 +:+ dq +:+ d2))
    with ("UPS " +:+ ((name +:+ " ") +:+ dq +:+ d1 +:+ dq +:+ d2)
          +:+ String DQ EmptyString)
    by (unfold ups_line; cbn [fst snd]; now rewrite !append_assoc).
  rewrite (slice_strip "UPS "), quoted_fields;
    [| apply contains_token_sp;
       [exact (plain_DQ _ (token_plain _ Hn)) | discriminate]
     | exact (plain_DQ _ Hd1)].
  cbn [String.eqb].
  destruct (split_cons DQ d2) as [z [rest ->]]. reflexivity.
Qed.

Lemma GetUPSList_quote_in_description_witness :
  GetUPSList
    (mkTelnet ("BEGIN LIST UPS" +:+ nl +:+
               "UPS ups1 " +:+ dq +:+ "Rack " +:+ dq +:+ "A" +:+ dq +:+ nl +:+
               "END LIST UPS" +:+ nl) [])
  = (Raise ValueError, mkTelnet EmptyString ["LIST UPS" +:+ nl]).
Proof.
  eapply (GetUPSList_quote_in_description_raises "ups1" "Rack " "A").
  - reflexivity.
  - reflexivity.
  - reflexivity.
  - reflexivity.
  - vm_compute. reflexivity.
  - vm_compute. reflexivity.
Defined.

(** ** A device name that is not ASCII *)

(** The operations on one device encode the device name before anything
    else: for a name with a character outside ASCII each of them raises
    [UnicodeEncodeError] and leaves the connection as it was, nothing
    written and nothing read. *)
Theorem non_ascii_device_sends_nothing ups t :
  is_ascii ups = false ->
  GetUPSVars ups t = (Raise UnicodeEncodeError, t)
  /\ GetUPSCommands ups t = (Raise UnicodeEncodeError, t)
  /\ GetRWVars ups t = (Raise UnicodeEncodeError, t)
  /\ FSD ups t = (Raise UnicodeEncodeError, t)
  /\ ListClients (Some ups) t = (Raise UnicodeEncodeError, t)
  /\ (forall var value,
        SetRWVar ups var value t = (Raise UnicodeEncodeError, t))
  /\ (forall command,
        RunUPSCommand ups command t = (Raise UnicodeEncodeError, t)).
Proof.
  intros H.
  unfold GetUPSVars, GetUPSCommands, GetRWVars, FSD, ListClients, SetRWVar,
    RunUPSCommand, bind, lift, encode_ascii.
  rewrite H. repeat split.
Qed.

Lemma non_ascii_device_witness :
  let ups := String (ascii_of_nat 233) "ups" in
  let t := mkTelnet scenarioA [] in
  GetUPSVars ups t = (Raise UnicodeEncodeError, t)
  /\ GetUPSCommands ups t = (Raise UnicodeEncodeError, t)
  /\ GetRWVars ups t = (Raise UnicodeEncodeError, t)
  /\ FSD ups t = (Raise UnicodeEncodeError, t)
  /\ ListClients (Some ups) t = (Raise UnicodeEncodeError, t)
  /\ (forall var value,
        SetRWVar ups var value t = (Raise UnicodeEncodeError, t))
  /\ (forall command,
        RunUPSCommand ups command t = (Raise UnicodeEncodeError, t)).
Proof.
  apply (non_ascii_device_sends_nothing
           (String (ascii_of_nat 233) "ups") (mkTelnet scenarioA [])).
  reflexivity.
Defined.
